(** * managed-cache: the cache manager, its memory storage and expiration

    A shallow embedding of the class [CacheManager] (the second part of
    src/cache-policy.ts, imported by the tests as cache-manager), of
    [MemoryCache] (memory-cache.ts), of the method decorator
    (cache-decorator.ts) and of the interfaces [ICachePolicy],
    [ICacheOptions] and [ICacheItem], followed by the properties of the
    specification that were checked against it and by further properties
    of the code.

    Conventions of the embedding.
    - A [Date] is its [valueOf()], a number of milliseconds, in [Z]; numbers
      ([maxAge]) are integers in [Z].
    - [new Date()] is an input of the method that evaluates it: every
      method that reads the clock takes the reading as its argument [now].
    - The dictionaries [_cache], [_policies] and [_contexts] are plain
      objects created by [{}]: a finite map of their own properties
      ([gmap string _]) over the properties they inherit from
      [Object.prototype], which has its standard members and no other.
      Reading [object[name]] finds an own property, else an inherited
      member, else [undefined] ([property]).  A [Set<string>] is a
      [gset string].
    - The name "__proto__" is an accessor of [Object.prototype]: assigning
      [object["__proto__"]] replaces the prototype of the dictionary, and
      [getCacheItem] assigns [accessed] on what it found, which under this
      name is [Object.prototype] itself.  A map cannot hold what lookups do
      after that; the embedding follows the code on the calls that neither
      write a dictionary under "__proto__" nor hit it with [getCacheItem],
      on the managers whose dictionaries were not written under that name
      before ([plain]); the properties below say where they need this.
    - The manager is the one exported by the module, over a [MemoryCache].
      A cache item is referenced from the storage under the hash of its
      key only, so assigning to a property of the item is an update of the
      storage at that hash.
    - A method of the class is a function from the manager's state to how
      it completes (it returns, or throws a [TypeError]) and the next
      state.  What a method does outside the manager (calling the wrapped
      target, attaching a [catch] handler to a promise) is returned as a
      list of [effect]s.
    - Functions received from the caller (a [maxAge], [context] or
      [policyKey] function, a wrapped target, [getKey]) are total and do
      not touch the manager.
    - [object-hash] is an external library: it is the section variable
      [hash]. *)

From stdpp Require Import gmap strings pretty countable list fin_maps fin_sets.
From Stdlib Require Import ZArith Lia.

Local Open Scope Z_scope.

(** ** JavaScript values *)

(** The values that keys, cached values and parameters range over.  Objects
    other than arrays are known by their reference. *)
#[local] Unset Elimination Schemes.
Inductive jsval : Type :=
  | VUndefined
  | VNull
  | VBool (b : bool)
  | VNum (n : Z)
  | VStr (s : string)
  | VArr (items : list jsval)
  | VRef (address : positive)
  | VFun (name : string) (address : positive)
  | VPromise (address : positive).
#[local] Set Elimination Schemes.

(** [ToBoolean]: what [if (v)] and [!v] test. *)
Definition truthy (v : jsval) : bool :=
  match v with
  | VUndefined | VNull => false
  | VBool b => b
  | VNum n => negb (n =? 0)
  | VStr s => negb (String.eqb s "")
  | VArr _ | VRef _ | VFun _ _ | VPromise _ => true
  end.

(** Truthiness of an optional boolean property ([sliding?: boolean]). *)
Definition truthy_flag (b : option bool) : bool := default false b.

(** A function object: its [name], its reference, and what calling it with
    a receiver and a list of arguments returns. *)
Record Callable : Type := mkCallable {
  fn_name : string;
  fn_address : positive;
  fn_apply : jsval -> list jsval -> jsval
}.

Definition fn_value (f : Callable) : jsval := VFun (fn_name f) (fn_address f).

(** ** Plain objects used as dictionaries *)

(** The properties of [Object.prototype]: every one is an object (a
    function, or for "__proto__" the prototype itself), so it is truthy
    and has none of the properties the manager reads ([maxAge], [sliding],
    [value], [context], [add], [delete]). *)
Definition Object_prototype_names : list string :=
  [ "constructor"; "hasOwnProperty"; "isPrototypeOf"; "propertyIsEnumerable";
    "toLocaleString"; "toString"; "valueOf"; "__defineGetter__";
    "__defineSetter__"; "__lookupGetter__"; "__lookupSetter__"; "__proto__" ].

Definition inherited (name : string) : bool :=
  existsb (String.eqb name) Object_prototype_names.

(** What [object[name]] evaluates to when it is not [undefined]: an own
    property, or the member of [Object.prototype] of that name. *)
Inductive member (V : Type) : Type :=
  | Own (v : V)
  | Inherited (name : string).
Arguments Own {V} v.
Arguments Inherited {V} name.

(** [object[name]], [None] being [undefined]. *)
Definition property {V : Type} (name : string) (own : gmap string V)
    : option (member V) :=
  match own !! name with
  | Some v => Some (Own v)
  | None => if inherited name then Some (Inherited name) else None
  end.

(** ** cache-policy.ts, cache-options.ts, cache-item.ts *)

(** [maxAge: number | ((...parameters: unknown[]) => number)] *)
Inductive MaxAge : Type :=
  | MaxAgeNumber (n : Z)
  | MaxAgeFunction (f : list jsval -> Z).

Module ICachePolicy.
Record t : Type := mk {
  maxAge : MaxAge;
  sliding : option bool;
  keepRejectedPromise : option bool
}.
End ICachePolicy.

(** [context?: string | ((...parameters: unknown[]) => string | undefined)] *)
Inductive ContextOption : Type :=
  | ContextString (s : string)
  | ContextFunction (f : list jsval -> option string).

(** [policyKey?: unknown]: a value that is not a function, or a function. *)
Inductive PolicyKeyOption : Type :=
  | PolicyKeyValue (v : jsval)
  | PolicyKeyFunction (f : Callable).

Module ICacheOptions.
Record t : Type := mk {
  context : option ContextOption;
  policyKey : option PolicyKeyOption;
  policy : option ICachePolicy.t
}.
End ICacheOptions.

Module ICacheItem.
Record t : Type := mk {
  key : jsval;
  value : jsval;
  context : option string;
  policyKey : option jsval;
  maxAge : option Z;
  sliding : option bool;
  created : Z;
  accessed : Z
}.

(** [cacheItem.accessed = now] *)
Definition set_accessed (now : Z) (i : t) : t :=
  mk (key i) (value i) (context i) (policyKey i) (maxAge i) (sliding i)
     (created i) now.

(** [cacheItem.context = ...] *)
Definition with_context (c : option string) (i : t) : t :=
  mk (key i) (value i) c (policyKey i) (maxAge i) (sliding i)
     (created i) (accessed i).

(** [cacheItem.policyKey = ...] *)
Definition with_policyKey (k : option jsval) (i : t) : t :=
  mk (key i) (value i) (context i) k (maxAge i) (sliding i)
     (created i) (accessed i).

(** [cacheItem.maxAge = ...; cacheItem.sliding = policy.sliding] *)
Definition with_policy (m : option Z) (sl : option bool) (i : t) : t :=
  mk (key i) (value i) (context i) (policyKey i) m sl
     (created i) (accessed i).
End ICacheItem.

(** ** memory-cache.ts *)

Module MemoryCache.
Abbreviation t := (gmap string ICacheItem.t).

(** [hash in this._cache] *)
Definition has (hash : string) (_cache : t) : bool :=
  match property hash _cache with
  | Some _ => true
  | None => false
  end.

(** [this._cache[hash]] *)
Definition get (hash : string) (_cache : t) : option (member ICacheItem.t) :=
  property hash _cache.

Definition set (hash : string) (cacheItem : ICacheItem.t) (_cache : t) : t :=
  <[hash := cacheItem]> _cache.

(** [delete] removes an own property and leaves an inherited one. *)
Definition remove (hash : string) (_cache : t)
    : option (member ICacheItem.t) * t :=
  match property hash _cache with
  | None => (None, _cache)
  | Some item => (Some item, delete hash _cache)
  end.

Definition clear (_cache : t) : t := ∅.
End MemoryCache.

(** ** Expiration (CacheManager.expired) *)

(** [expired(cacheItem, time?)]; [clock] is what [new Date()] returns when
    [time] is not given. *)
Definition expired (clock : Z) (cacheItem : ICacheItem.t) (time : option Z) : bool :=
  match ICacheItem.maxAge cacheItem with
  | None => false
  | Some maxAge =>
      if maxAge =? 0 then false
      else
        let start :=
          if truthy_flag (ICacheItem.sliding cacheItem)
          then ICacheItem.accessed cacheItem
          else ICacheItem.created cacheItem in
        let age := default clock time - start in
        age >? maxAge
  end.

(** [expired] applied to what the storage returned: a member of
    [Object.prototype] has no [maxAge]. *)
Definition expired_found (clock : Z) (cacheItem : member ICacheItem.t)
    (time : option Z) : bool :=
  match cacheItem with
  | Own cacheItem => expired clock cacheItem time
  | Inherited _ => false
  end.

(** ** cache-manager.ts *)

(** What a manager method does outside the manager's own state. *)
Inductive effect : Type :=
  | Invoked (target : string) (this : jsval) (parameters : list jsval)
  | CatchAttached (promise : positive) (key : jsval).

(** How a method call completes: it returns, or a [TypeError] is thrown
    (calling [undefined], or iterating what is not iterable). *)
Inductive completion (A : Type) : Type :=
  | Return (a : A)
  | ThrowTypeError.
Arguments Return {A} a.
Arguments ThrowTypeError {A}.

Module CacheManager.

Record t : Type := mk {
  storage : MemoryCache.t;
  _policies : gmap string ICachePolicy.t;
  _contexts : gmap string (gset string)
}.

Definition with_storage (st : MemoryCache.t) (s : t) : t :=
  mk st (_policies s) (_contexts s).

(** [new CacheManager(new MemoryCache())] *)
Definition new : t := mk ∅ ∅ ∅.

(** The dictionaries of the manager have [Object.prototype] as their
    prototype: nothing was assigned to them under "__proto__". *)
Definition plain (s : t) : Prop :=
  storage s !! "__proto__" = None /\
  _policies s !! "__proto__" = None /\
  _contexts s !! "__proto__" = None.

Section WithHash.

(** [import * as hash from "object-hash"] *)
Variable hash : jsval -> string.

Definition getHash (key : jsval) : string :=
  match key with
  | VStr s => s
  | _ => hash key
  end.

Definition setCachePolicy (policyKey : jsval) (policy : ICachePolicy.t)
    (s : t) : t :=
  mk (storage s) (<[getHash policyKey := policy]> (_policies s)) (_contexts s).

(** The item returned on a hit is the stored object itself, whose
    [accessed] property has just been assigned: the assignment is a
    write to the storage under [keyHash].  When the storage returned a
    member of [Object.prototype], the assignment is on that built-in
    object and the manager does not change. *)
Definition getCacheItem (key : jsval) (now : Z) (s : t)
    : option (member ICacheItem.t) * t :=
  let keyHash := getHash key in
  match MemoryCache.get keyHash (storage s) with
  | None => (None, s)
  | Some cacheItem =>
      if expired_found now cacheItem (Some now) then
        (None, with_storage (snd (MemoryCache.remove keyHash (storage s))) s)
      else
        match cacheItem with
        | Own cacheItem =>
            let cacheItem := ICacheItem.set_accessed now cacheItem in
            (Some (Own cacheItem),
             with_storage (<[keyHash := cacheItem]> (storage s)) s)
        | Inherited name => (Some (Inherited name), s)
        end
  end.

(** [hashes.add] throws when [this._contexts[context]] is a member of
    [Object.prototype]; the item is in the storage by then. *)
Definition setCacheItem (cacheItem : ICacheItem.t) (s : t) : completion unit * t :=
  let keyHash := getHash (ICacheItem.key cacheItem) in
  let st := MemoryCache.set keyHash cacheItem (storage s) in
  match ICacheItem.context cacheItem with
  | Some context =>
      match property context (_contexts s) with
      | Some (Own hashes) =>
          (Return tt,
           mk st (_policies s) (<[context := {[keyHash]} ∪ hashes]> (_contexts s)))
      | Some (Inherited _) => (ThrowTypeError, with_storage st s)
      | None =>
          (Return tt,
           mk st (_policies s) (<[context := {[keyHash]} ∪ ∅]> (_contexts s)))
      end
  | None => (Return tt, with_storage st s)
  end.

Definition has (key : jsval) (now : Z) (s : t) : bool * t :=
  let keyHash := getHash key in
  match MemoryCache.get keyHash (storage s) with
  | None => (false, s)
  | Some cacheItem => (negb (expired_found now cacheItem None), s)
  end.

(** [cacheItem.value] of a member of [Object.prototype] is [undefined]. *)
Definition get (key : jsval) (now : Z) (s : t) : jsval * t :=
  match getCacheItem key now s with
  | (Some (Own cacheItem), s') => (ICacheItem.value cacheItem, s')
  | (Some (Inherited _), s') => (VUndefined, s')
  | (None, s') => (VUndefined, s')
  end.

(** The tail of [set], after the policy is resolved: the [catch] handler
    and [setCacheItem]. *)
Definition set_store (key value : jsval) (policy : option ICachePolicy.t)
    (cacheItem : ICacheItem.t) (s : t) : completion unit * list effect * t :=
  let keepRejectedPromise :=
    match policy with
    | Some policy => truthy_flag (ICachePolicy.keepRejectedPromise policy)
    | None => false
    end in
  let effects :=
    match value with
    | VPromise p =>
        if keepRejectedPromise then [] else [CatchAttached p key]
    | _ => []
    end in
  let '(completed, s') := setCacheItem cacheItem s in
  (completed, effects, s').

(** When [this._policies[...]] is a member of [Object.prototype], that
    object is the policy: its [maxAge] is [undefined], which is neither 0
    nor a number, and calling it throws. *)
Definition set (key value : jsval) (options : option ICacheOptions.t)
    (parameters : option (list jsval)) (now : Z) (s : t)
    : completion unit * list effect * t :=
  let arguments := default [] parameters in
  let cacheItem := ICacheItem.mk key value None None None None now now in
  match options with
  | None => set_store key value None cacheItem s
  | Some options =>
      let cacheItem :=
        match ICacheOptions.context options with
        | Some (ContextString context) =>
            if String.eqb context "" then cacheItem
            else ICacheItem.with_context (Some context) cacheItem
        | Some (ContextFunction context) =>
            ICacheItem.with_context (context arguments) cacheItem
        | None => cacheItem
        end in
      let '(cacheItem, policy) :=
        match ICacheOptions.policyKey options with
        | Some (PolicyKeyValue policyKey) =>
            if truthy policyKey then
              (ICacheItem.with_policyKey (Some policyKey) cacheItem,
               property (getHash policyKey) (_policies s))
            else (cacheItem, None)
        | Some (PolicyKeyFunction policyKey) =>
            (ICacheItem.with_policyKey
               (Some (fn_apply policyKey VUndefined arguments)) cacheItem,
             property (getHash (fn_value policyKey)) (_policies s))
        | None => (cacheItem, None)
        end in
      let policy :=
        match policy with
        | Some policy => Some policy
        | None => Own <$> ICacheOptions.policy options
        end in
      match policy with
      | None => set_store key value None cacheItem s
      | Some (Inherited _) => (ThrowTypeError, [], s)
      | Some (Own policy) =>
          match ICachePolicy.maxAge policy with
          | MaxAgeNumber maxAge =>
              if maxAge =? 0 then (Return tt, [], s)
              else
                set_store key value (Some policy)
                  (ICacheItem.with_policy (Some maxAge)
                     (ICachePolicy.sliding policy) cacheItem) s
          | MaxAgeFunction maxAge =>
              set_store key value (Some policy)
                (ICacheItem.with_policy (Some (maxAge arguments))
                   (ICachePolicy.sliding policy) cacheItem) s
          end
      end
  end.

(** The parts of [set] by themselves, to state what a call of [set] did:
    the policy it resolved (registry entry of a truthy [policyKey], else
    [options.policy]), whether it returned early on [maxAge === 0], the
    [maxAge] it evaluated, the context it computed and the handler it
    attached. *)
Definition resolvedPolicy (options : option ICacheOptions.t) (s : t)
    : option (member ICachePolicy.t) :=
  match options with
  | None => None
  | Some options =>
      let policy :=
        match ICacheOptions.policyKey options with
        | Some (PolicyKeyValue policyKey) =>
            if truthy policyKey then property (getHash policyKey) (_policies s)
            else None
        | Some (PolicyKeyFunction policyKey) =>
            property (getHash (fn_value policyKey)) (_policies s)
        | None => None
        end in
      match policy with
      | Some policy => Some policy
      | None => Own <$> ICacheOptions.policy options
      end
  end.

Definition returnsEarly (policy : option (member ICachePolicy.t)) : bool :=
  match policy with
  | Some (Own policy) =>
      match ICachePolicy.maxAge policy with
      | MaxAgeNumber maxAge => maxAge =? 0
      | MaxAgeFunction _ => false
      end
  | Some (Inherited _) | None => false
  end.

Definition evaluatedMaxAge (policy : ICachePolicy.t)
    (parameters : option (list jsval)) : Z :=
  match ICachePolicy.maxAge policy with
  | MaxAgeNumber maxAge => maxAge
  | MaxAgeFunction maxAge => maxAge (default [] parameters)
  end.

Definition evaluatedContext (options : option ICacheOptions.t)
    (parameters : option (list jsval)) : option string :=
  match options with
  | None => None
  | Some options =>
      match ICacheOptions.context options with
      | Some (ContextString context) =>
          if String.eqb context "" then None else Some context
      | Some (ContextFunction context) => context (default [] parameters)
      | None => None
      end
  end.

(** Whether what was resolved as the policy is a member of
    [Object.prototype], on which [set] throws, and the policy otherwise. *)
Definition throwsOnPolicy (policy : option (member ICachePolicy.t)) : bool :=
  match policy with
  | Some (Inherited _) => true
  | Some (Own _) | None => false
  end.

Definition ownPolicy (policy : option (member ICachePolicy.t))
    : option ICachePolicy.t :=
  match policy with
  | Some (Own policy) => Some policy
  | Some (Inherited _) | None => None
  end.

Definition keepsRejectedPromise (policy : option (member ICachePolicy.t)) : bool :=
  match policy with
  | Some (Own policy) => truthy_flag (ICachePolicy.keepRejectedPromise policy)
  | Some (Inherited _) | None => false
  end.

(** [this._contexts[context].delete] throws when [this._contexts[context]]
    is [undefined] or a member of [Object.prototype]; a member of
    [Object.prototype] returned by the storage has no [context]. *)
Definition remove (key : jsval) (s : t) : completion bool * t :=
  let keyHash := getHash key in
  match MemoryCache.remove keyHash (storage s) with
  | (None, st) => (Return false, with_storage st s)
  | (Some (Inherited _), st) => (Return true, with_storage st s)
  | (Some (Own cacheItem), st) =>
      match ICacheItem.context cacheItem with
      | None => (Return true, with_storage st s)
      | Some context =>
          if String.eqb context "" then (Return true, with_storage st s)
          else
            match property context (_contexts s) with
            | Some (Own hashes) =>
                (Return true,
                 mk st (_policies s)
                    (<[context := hashes ∖ {[keyHash]}]> (_contexts s)))
            | Some (Inherited _) | None => (ThrowTypeError, with_storage st s)
            end
      end
  end.

(** [for (const keyHash of hashes)] throws when [hashes] is a member of
    [Object.prototype]. *)
Definition removeContext (context : string) (s : t) : completion unit * t :=
  match property context (_contexts s) with
  | None => (Return tt, s)
  | Some (Inherited _) => (ThrowTypeError, s)
  | Some (Own hashes) =>
      let st :=
        set_fold (fun keyHash st => snd (MemoryCache.remove keyHash st))
                 (storage s) hashes in
      (Return tt, mk st (_policies s) (delete context (_contexts s)))
  end.

Definition clear (s : t) : t :=
  mk (MemoryCache.clear (storage s)) (_policies s) ∅.

(** The default key of a wrapped function: [[target.name, parameters]]. *)
Definition defaultKey (target : Callable) (parameters : list jsval) : jsval :=
  VArr [VStr (fn_name target); VArr parameters].

(** [wrap(target, cacheOptions, getKey)] applied to a receiver and a
    list of parameters; [now_get] is the clock reading of
    [getCacheItem] and [now_set] that of [set].  When [set] throws, so
    does the wrapped function. *)
Definition wrap (target : Callable) (cacheOptions : option ICacheOptions.t)
    (getKey : option (list jsval -> jsval))
    (this : jsval) (parameters : list jsval) (now_get now_set : Z) (s : t)
    : completion jsval * list effect * t :=
  let key :=
    match getKey with
    | Some getKey => getKey parameters
    | None => defaultKey target parameters
    end in
  match getCacheItem key now_get s with
  | (Some (Own cacheItem), s') => (Return (ICacheItem.value cacheItem), [], s')
  | (Some (Inherited _), s') => (Return VUndefined, [], s')
  | (None, s') =>
      let value := fn_apply target this parameters in
      let '(completed, effects, s'') :=
        set key value cacheOptions (Some parameters) now_set s' in
      (match completed with
       | Return _ => Return value
       | ThrowTypeError => ThrowTypeError
       end,
       Invoked (fn_name target) this parameters :: effects, s'')
  end.

(** A promise rejects: the [catch] handlers attached to it run in the order
    they were attached, each calling [remove(key)]; what [remove] returns or
    throws inside a handler is not observed. *)
Definition settleRejected (promise : positive) (handlers : list effect) (s : t) : t :=
  fold_left
    (fun s handler =>
       match handler with
       | CatchAttached p key =>
           if Pos.eqb p promise then snd (remove key s) else s
       | Invoked _ _ _ => s
       end)
    handlers s.

End WithHash.
End CacheManager.

(** ** cache-decorator.ts *)

Module CacheDecorator.
Section WithHash.

Variable hash : jsval -> string.

(** [Object.assign({ policyKey: [target.constructor, propertyName] }, options)]:
    the properties that [options] has replace the default.  An optional
    property is either present with a value or absent. *)
Definition assignOptions (constructor : jsval) (propertyName : string)
    (options : option ICacheOptions.t) : ICacheOptions.t :=
  let policyKey := PolicyKeyValue (VArr [constructor; VStr propertyName]) in
  match options with
  | None => ICacheOptions.mk None (Some policyKey) None
  | Some options =>
      ICacheOptions.mk
        (ICacheOptions.context options)
        (match ICacheOptions.policyKey options with
         | Some policyKey => Some policyKey
         | None => Some policyKey
         end)
        (ICacheOptions.policy options)
  end.

(** [cacheDecorator(options, target, propertyName, descriptor)]: the new
    [descriptor.value], applied to a receiver and a list of parameters on
    the exported manager.  [constructor] is [target.constructor] and
    [method] the decorated [descriptor.value]. *)
Definition cacheDecorator (options : option ICacheOptions.t) (constructor : jsval)
    (propertyName : string) (method : Callable)
    (this : jsval) (parameters : list jsval) (now_get now_set : Z)
    (s : CacheManager.t) : completion jsval * list effect * CacheManager.t :=
  let cacheOptions := assignOptions constructor propertyName options in
  CacheManager.wrap hash method (Some cacheOptions)
    (Some (fun parameters => VArr (constructor :: VStr propertyName :: parameters)))
    this parameters now_get now_set s.

(** [cache(options)] is [cacheDecorator.bind(undefined, options)]. *)
Definition cache (options : option ICacheOptions.t) :=
  cacheDecorator options.

End WithHash.
End CacheDecorator.

(** ** Runs of the manager *)

Section runs.
Variable hash : jsval -> string.

(** One call of a public method of the manager, or a promise rejection
    running the handlers that [set] attached; the state after a call that
    threw is the state at the throw.  The calls that write the storage or
    the policies under "__proto__", or read the storage under it with
    [getCacheItem], are left out (see the conventions). *)
Inductive step : CacheManager.t -> CacheManager.t -> Prop :=
  | step_setCachePolicy policyKey policy s :
      CacheManager.getHash hash policyKey <> "__proto__" ->
      step s (CacheManager.setCachePolicy hash policyKey policy s)
  | step_getCacheItem key now s :
      CacheManager.getHash hash key <> "__proto__" ->
      step s (snd (CacheManager.getCacheItem hash key now s))
  | step_setCacheItem cacheItem s :
      CacheManager.getHash hash (ICacheItem.key cacheItem) <> "__proto__" ->
      step s (snd (CacheManager.setCacheItem hash cacheItem s))
  | step_has key now s :
      step s (snd (CacheManager.has hash key now s))
  | step_get key now s :
      CacheManager.getHash hash key <> "__proto__" ->
      step s (snd (CacheManager.get hash key now s))
  | step_set key value options parameters now s :
      CacheManager.getHash hash key <> "__proto__" ->
      step s (snd (CacheManager.set hash key value options parameters now s))
  | step_remove key s :
      step s (snd (CacheManager.remove hash key s))
  | step_removeContext context s :
      step s (snd (CacheManager.removeContext context s))
  | step_clear s :
      step s (CacheManager.clear s)
  | step_wrap target cacheOptions getKey this parameters now_get now_set s :
      CacheManager.getHash hash
        (match getKey with
         | Some getKey => getKey parameters
         | None => CacheManager.defaultKey target parameters
         end) <> "__proto__" ->
      step s (snd (CacheManager.wrap hash target cacheOptions getKey this
                     parameters now_get now_set s))
  | step_settleRejected promise handlers s :
      step s (CacheManager.settleRejected hash promise handlers s).

(** The states a new manager can be in. *)
Inductive reachable : CacheManager.t -> Prop :=
  | reachable_new : reachable CacheManager.new
  | reachable_step s s' : reachable s -> step s s' -> reachable s'.

End runs.

(** Every stored entry whose context is not the name of a member of
    [Object.prototype] is listed in the set registered under that
    context. *)
Definition registry_covers (s : CacheManager.t) : Prop :=
  forall h e context,
    CacheManager.storage s !! h = Some e ->
    ICacheItem.context e = Some context ->
    inherited context = false ->
    exists hashes,
      CacheManager._contexts s !! context = Some hashes /\ h ∈ hashes.

(** ** A hash for examples *)

(** Values as trees of tagged leaves; [digest] prints the code of the tree.
    It is the instance of [hash] on which the manager is run in the
    examples below; it is not [object-hash], with which it shares that
    equal keys get equal strings and that the keys of the examples, which
    differ in content, get different ones. *)
Fixpoint jsval_to_tree (v : jsval) : gen_tree (bool + Z + string + positive) :=
  match v with
  | VUndefined => GenNode 0 []
  | VNull => GenNode 1 []
  | VBool b => GenNode 2 [GenLeaf (inl (inl (inl b)))]
  | VNum n => GenNode 3 [GenLeaf (inl (inl (inr n)))]
  | VStr s => GenNode 4 [GenLeaf (inl (inr s))]
  | VArr items => GenNode 5 (map jsval_to_tree items)
  | VRef a => GenNode 6 [GenLeaf (inr a)]
  | VFun n a => GenNode 7 [GenLeaf (inl (inr n)); GenLeaf (inr a)]
  | VPromise a => GenNode 8 [GenLeaf (inr a)]
  end.

Definition digest (v : jsval) : string := pretty (encode (jsval_to_tree v)).

(** ** Words of the specification *)

(** "start = sliding ? accessed : created" *)
Definition expiry_start (e : ICacheItem.t) : Z :=
  if decide (ICacheItem.sliding e = Some true)
  then ICacheItem.accessed e
  else ICacheItem.created e.

(** ** Sample data *)

Definition item_fixed : ICacheItem.t :=
  ICacheItem.mk (VStr "k") (VRef 1) None None (Some 100) None 0 50.

Definition item_sliding : ICacheItem.t :=
  ICacheItem.mk (VStr "k") (VRef 1) None None (Some 100) (Some true) 0 50.

Definition policy_zero : ICachePolicy.t :=
  ICachePolicy.mk (MaxAgeNumber 0) None None.

Definition policy_zero_function : ICachePolicy.t :=
  ICachePolicy.mk (MaxAgeFunction (fun _ => 0)) None None.

Definition policy_negative : ICachePolicy.t :=
  ICachePolicy.mk (MaxAgeNumber (-1)) None None.

Definition policy_100 : ICachePolicy.t :=
  ICachePolicy.mk (MaxAgeNumber 100) None None.

Definition policy_keep : ICachePolicy.t :=
  ICachePolicy.mk (MaxAgeNumber 100) None (Some true).

(** [{ policy }] *)
Definition options_policy (policy : ICachePolicy.t) : option ICacheOptions.t :=
  Some (ICacheOptions.mk None None (Some policy)).

(** [{ context }] and [{ context, policy }] *)
Definition options_context (context : string) : option ICacheOptions.t :=
  Some (ICacheOptions.mk (Some (ContextString context)) None None).

Definition options_context_policy (context : string) (policy : ICachePolicy.t)
    : option ICacheOptions.t :=
  Some (ICacheOptions.mk (Some (ContextString context)) None (Some policy)).

(** Two functions of the same name, and a third of another name. *)
Definition getData_a : Callable :=
  mkCallable "getData" 1 (fun _ _ => VRef 10).



(** * Properties *)

(** ** Expiration *)

Lemma expired_now_given (clock now : Z) (e : ICacheItem.t) :
  expired clock e (Some now) = expired now e None.
Proof. reflexivity. Qed.

Lemma expired_start (clock now : Z) (e : ICacheItem.t) (maxAge : Z) :
  ICacheItem.maxAge e = Some maxAge -> maxAge <> 0 ->
  expired clock e (Some now) = bool_decide (now - expiry_start e > maxAge).
Proof.
  intros Hm Hz. unfold expired, expiry_start. rewrite Hm.
  destruct (Z.eqb_spec maxAge 0) as [|_]; [done|].
  assert (Hs : truthy_flag (ICacheItem.sliding e)
               = bool_decide (ICacheItem.sliding e = Some true)).
  { destruct (ICacheItem.sliding e) as [[]|]; reflexivity. }
  rewrite Hs. simpl. destruct (decide (ICacheItem.sliding e = Some true)) as [Hd|Hd].
  - rewrite bool_decide_eq_true_2 by done.
    apply eq_iff_eq_true. rewrite bool_decide_eq_true. rewrite Z.gtb_gt. reflexivity.
  - rewrite bool_decide_eq_false_2 by done.
    apply eq_iff_eq_true. rewrite bool_decide_eq_true. rewrite Z.gtb_gt. reflexivity.
Qed.

(** C1. An entry whose [maxAge] is absent or zero never expires; otherwise,
    with [start] the time of the last access of a sliding entry and the
    time of creation of any other, the entry is expired at [now] exactly
    when [now - start] is strictly greater than [maxAge]; an age equal to
    [maxAge] is not expired. *)
Theorem expired_correct (clock now : Z) (e : ICacheItem.t) :
  (ICacheItem.maxAge e = None \/ ICacheItem.maxAge e = Some 0 ->
     expired clock e (Some now) = false) /\
  (forall maxAge, ICacheItem.maxAge e = Some maxAge -> maxAge <> 0 ->
     (expired clock e (Some now) = true <-> now - expiry_start e > maxAge)) /\
  (forall maxAge, ICacheItem.maxAge e = Some maxAge ->
     now - expiry_start e = maxAge -> expired clock e (Some now) = false).
Proof.
  split; [|split].
  - intros [Hm|Hm]; unfold expired; rewrite Hm; reflexivity.
  - intros maxAge Hm Hz. rewrite (expired_start _ _ _ _ Hm Hz).
    apply bool_decide_eq_true.
  - intros maxAge Hm Hage. destruct (decide (maxAge = 0)) as [->|Hz].
    + unfold expired. rewrite Hm. reflexivity.
    + rewrite (expired_start _ _ _ _ Hm Hz). apply bool_decide_eq_false. lia.
Qed.

Lemma expired_correct_witness :
  expired 0 item_fixed (Some 101) = true /\
  expired 0 item_fixed (Some 100) = false /\
  expired 0 item_sliding (Some 150) = false /\
  expired 0 item_sliding (Some 151) = true.
Proof.
  split; [|split; [|split]].
  - apply (proj1 (proj2 (expired_correct 0 101 item_fixed)) 100);
      [reflexivity | lia | reflexivity].
  - apply (proj2 (proj2 (expired_correct 0 100 item_fixed)) 100); reflexivity.
  - apply (proj2 (proj2 (expired_correct 0 150 item_sliding)) 100); reflexivity.
  - apply (proj1 (proj2 (expired_correct 0 151 item_sliding)) 100);
      [reflexivity | lia | reflexivity].
Defined.

(** ** Lookups in a dictionary *)

Lemma property_own {V : Type} (name : string) (own : gmap string V) (v : V) :
  own !! name = Some v -> property name own = Some (Own v).
Proof. intros Hown. unfold property. by rewrite Hown. Qed.

Lemma property_inherited {V : Type} (name : string) (own : gmap string V) :
  own !! name = None -> inherited name = true ->
  property name own = Some (Inherited name).
Proof. intros Hown Hin. unfold property. by rewrite Hown, Hin. Qed.

Lemma property_undefined {V : Type} (name : string) (own : gmap string V) :
  own !! name = None -> inherited name = false -> property name own = None.
Proof. intros Hown Hin. unfold property. by rewrite Hown, Hin. Qed.

Lemma property_None {V : Type} (name : string) (own : gmap string V) :
  property name own = None -> own !! name = None /\ inherited name = false.
Proof.
  unfold property. destruct (own !! name); [done|].
  by destruct (inherited name).
Qed.

Lemma property_Own {V : Type} (name : string) (own : gmap string V) (v : V) :
  property name own = Some (Own v) -> own !! name = Some v.
Proof.
  unfold property. destruct (own !! name); [by intros [= ->]|].
  by destruct (inherited name).
Qed.

Lemma property_Inherited {V : Type} (name : string) (own : gmap string V)
    (n : string) :
  property name own = Some (Inherited n) ->
  own !! name = None /\ inherited name = true /\ n = name.
Proof.
  unfold property. destruct (own !! name); [done|].
  destruct (inherited name); [|done]. by intros [= ->].
Qed.

Lemma plain_new : CacheManager.plain CacheManager.new.
Proof. by split; [|split]. Qed.

Lemma inherited_proto (name : string) : inherited name = false -> name <> "__proto__".
Proof. by intros Hin ->. Qed.

(** ** The read path *)

Section read_path.
Variable hash : jsval -> string.
Abbreviation getHash := (CacheManager.getHash hash).
Abbreviation getCacheItem := (CacheManager.getCacheItem hash).

Lemma getCacheItem_miss (key : jsval) (now : Z) (s : CacheManager.t) :
  MemoryCache.get (getHash key) (CacheManager.storage s) = None ->
  getCacheItem key now s = (None, s).
Proof.
  intros Hnone. unfold CacheManager.getCacheItem. by rewrite Hnone.
Qed.

Lemma getCacheItem_absent (key : jsval) (now : Z) (s : CacheManager.t) :
  CacheManager.storage s !! getHash key = None ->
  inherited (getHash key) = false ->
  getCacheItem key now s = (None, s).
Proof.
  intros Hnone Hin. apply getCacheItem_miss. by apply property_undefined.
Qed.

Lemma getCacheItem_inherited (key : jsval) (now : Z) (s : CacheManager.t) :
  CacheManager.storage s !! getHash key = None ->
  inherited (getHash key) = true ->
  getCacheItem key now s = (Some (Inherited (getHash key)), s).
Proof.
  intros Hnone Hin. unfold CacheManager.getCacheItem, MemoryCache.get.
  by rewrite (property_inherited _ _ Hnone Hin).
Qed.

Lemma getCacheItem_expired (key : jsval) (now : Z) (s : CacheManager.t)
    (e : ICacheItem.t) :
  CacheManager.storage s !! getHash key = Some e ->
  expired now e (Some now) = true ->
  getCacheItem key now s =
    (None, CacheManager.with_storage
             (delete (getHash key) (CacheManager.storage s)) s).
Proof.
  intros Hsome Hexp.
  unfold CacheManager.getCacheItem, MemoryCache.get, MemoryCache.remove.
  rewrite (property_own _ _ _ Hsome). simpl. by rewrite Hexp.
Qed.

Lemma getCacheItem_hit (key : jsval) (now : Z) (s : CacheManager.t)
    (e : ICacheItem.t) :
  CacheManager.storage s !! getHash key = Some e ->
  expired now e (Some now) = false ->
  getCacheItem key now s =
    (Some (Own (ICacheItem.set_accessed now e)),
     CacheManager.with_storage
       (<[getHash key := ICacheItem.set_accessed now e]> (CacheManager.storage s)) s).
Proof.
  intros Hsome Hexp. unfold CacheManager.getCacheItem, MemoryCache.get.
  rewrite (property_own _ _ _ Hsome). simpl. by rewrite Hexp.
Qed.

Lemma getCacheItem_policies (key : jsval) (now : Z) (s : CacheManager.t) :
  CacheManager._policies (snd (getCacheItem key now s)) = CacheManager._policies s.
Proof.
  unfold CacheManager.getCacheItem.
  destruct (MemoryCache.get _ _) as [[e|n]|]; [|done|done].
  simpl. by destruct (expired now e (Some now)).
Qed.

(** No read touches the context registry, not even the one that deletes an
    expired entry. *)
Lemma getCacheItem_contexts (key : jsval) (now : Z) (s : CacheManager.t) :
  CacheManager._contexts (snd (getCacheItem key now s))
    = CacheManager._contexts s.
Proof.
  unfold CacheManager.getCacheItem.
  destruct (MemoryCache.get _ _) as [[e|n]|]; [|done|done].
  simpl. by destruct (expired now e (Some now)).
Qed.

Lemma getCacheItem_storage_ne (key : jsval) (now : Z) (s : CacheManager.t)
    (h : string) :
  h <> getHash key ->
  CacheManager.storage (snd (getCacheItem key now s)) !! h
    = CacheManager.storage s !! h.
Proof.
  intros Hne. unfold CacheManager.getCacheItem, MemoryCache.get, MemoryCache.remove.
  destruct (property (getHash key) (CacheManager.storage s)) as [[e|n]|];
    [|done|done].
  simpl. destruct (expired now e (Some now)); simpl.
  - by apply lookup_delete_ne.
  - by apply lookup_insert_ne.
Qed.

End read_path.

(** C2, on the code.  On a new manager nothing is stored under "toString",
    and [getCacheItem("toString")] is not a miss: the storage reads
    [this._cache["toString"]] on a plain object, finds the function
    inherited from [Object.prototype], which has no [maxAge] and so is not
    expired, and the manager returns it as the cache item; [get] then
    returns its [value], [undefined].  The same holds at every time and
    for "constructor". *)
Theorem getCacheItem_inherited_name_hits :
  CacheManager.storage CacheManager.new !! "toString" = None /\
  forall now,
    CacheManager.getCacheItem digest (VStr "toString") now CacheManager.new
      = (Some (Inherited "toString"), CacheManager.new) /\
    CacheManager.getCacheItem digest (VStr "constructor") now CacheManager.new
      = (Some (Inherited "constructor"), CacheManager.new) /\
    CacheManager.get digest (VStr "toString") now CacheManager.new
      = (VUndefined, CacheManager.new).
Proof. split; [reflexivity|]. intros now. repeat split. Qed.

(** ** Presence test *)

Section presence.
Variable hash : jsval -> string.
Abbreviation getHash := (CacheManager.getHash hash).
Abbreviation getCacheItem := (CacheManager.getCacheItem hash).
Abbreviation has := (CacheManager.has hash).

Lemma has_absent (key : jsval) (now : Z) (s : CacheManager.t) :
  CacheManager.storage s !! getHash key = None ->
  inherited (getHash key) = false ->
  has key now s = (false, s).
Proof.
  intros Hnone Hin. unfold CacheManager.has, MemoryCache.get.
  by rewrite (property_undefined _ _ Hnone Hin).
Qed.

Lemma has_own (key : jsval) (now : Z) (s : CacheManager.t) (e : ICacheItem.t) :
  CacheManager.storage s !! getHash key = Some e ->
  has key now s = (negb (expired now e (Some now)), s).
Proof.
  intros Hsome. unfold CacheManager.has, MemoryCache.get.
  by rewrite (property_own _ _ _ Hsome).
Qed.

Lemma has_same_entry (key : jsval) (now : Z) (s s' : CacheManager.t) :
  CacheManager.storage s' !! getHash key = CacheManager.storage s !! getHash key ->
  fst (has key now s') = fst (has key now s).
Proof.
  intros Heq. unfold CacheManager.has, MemoryCache.get, property. rewrite Heq.
  destruct (CacheManager.storage s !! getHash key); [done|].
  by destruct (inherited (getHash key)).
Qed.

Lemma getCacheItem_same_entry (key : jsval) (now : Z) (s s' : CacheManager.t) :
  CacheManager.storage s' !! getHash key = CacheManager.storage s !! getHash key ->
  fst (getCacheItem key now s') = fst (getCacheItem key now s).
Proof.
  intros Heq. unfold CacheManager.getCacheItem, MemoryCache.get, property.
  rewrite Heq.
  destruct (CacheManager.storage s !! getHash key) as [e|]; simpl.
  - by destruct (expired now e (Some now)).
  - by destruct (inherited (getHash key)).
Qed.

End presence.

(** C10, on the code.  On a new manager nothing is stored, and [has] is
    true for "toString", "constructor" and "__proto__" at every time: the
    storage reads [this._cache[hash]] on a plain object and finds the
    member inherited from [Object.prototype].  For a name that
    [Object.prototype] does not have, [has] is false. *)
Theorem has_inherited_name_true :
  CacheManager.storage CacheManager.new = ∅ /\
  forall now,
    CacheManager.has digest (VStr "toString") now CacheManager.new
      = (true, CacheManager.new) /\
    CacheManager.has digest (VStr "constructor") now CacheManager.new
      = (true, CacheManager.new) /\
    CacheManager.has digest (VStr "__proto__") now CacheManager.new
      = (true, CacheManager.new) /\
    CacheManager.has digest (VStr "k") now CacheManager.new
      = (false, CacheManager.new).
Proof. split; [reflexivity|]. intros now. repeat split. Qed.

(** ** Policy override *)

Section policy_override.
Variable hash : jsval -> string.
Abbreviation getHash := (CacheManager.getHash hash).
Abbreviation getCacheItem := (CacheManager.getCacheItem hash).
Abbreviation has := (CacheManager.has hash).
Abbreviation setCachePolicy := (CacheManager.setCachePolicy hash).

(** Reads do not consult the policy registry. *)
Lemma getCacheItem_policies_irrelevant (key : jsval) (now : Z)
    (st : gmap string ICacheItem.t) (c : gmap string (gset string))
    (p p' : gmap string ICachePolicy.t) :
  fst (getCacheItem key now (CacheManager.mk st p c))
    = fst (getCacheItem key now (CacheManager.mk st p' c)) /\
  CacheManager.storage (snd (getCacheItem key now (CacheManager.mk st p c)))
    = CacheManager.storage (snd (getCacheItem key now (CacheManager.mk st p' c))) /\
  CacheManager._contexts (snd (getCacheItem key now (CacheManager.mk st p c)))
    = CacheManager._contexts (snd (getCacheItem key now (CacheManager.mk st p' c))).
Proof.
  unfold CacheManager.getCacheItem, MemoryCache.get, MemoryCache.remove. simpl.
  destruct (property (getHash key) st) as [[e|n]|]; [|done|done].
  simpl. by destruct (expired now e (Some now)).
Qed.

(** C6. [setCachePolicy(policyKey, policy)] writes the policy registry and
    nothing else: the storage and the context registry are the same, so
    every stored entry keeps the [maxAge] and [sliding] it was written
    with, and every later read ([getCacheItem], [has]) gives the result,
    the storage and the contexts it would have given without the
    override. *)
Theorem setCachePolicy_frame (policyKey : jsval) (policy : ICachePolicy.t)
    (s : CacheManager.t) :
  let s' := setCachePolicy policyKey policy s in
  CacheManager._policies s'
    = <[getHash policyKey := policy]> (CacheManager._policies s) /\
  CacheManager.storage s' = CacheManager.storage s /\
  CacheManager._contexts s' = CacheManager._contexts s /\
  (forall key now,
     fst (getCacheItem key now s') = fst (getCacheItem key now s) /\
     CacheManager.storage (snd (getCacheItem key now s'))
       = CacheManager.storage (snd (getCacheItem key now s)) /\
     CacheManager._contexts (snd (getCacheItem key now s'))
       = CacheManager._contexts (snd (getCacheItem key now s)) /\
     fst (has key now s') = fst (has key now s)).
Proof.
  destruct s as [st p c]. simpl. repeat split; try reflexivity;
    try apply getCacheItem_policies_irrelevant.
  unfold CacheManager.has, MemoryCache.get. simpl.
  by destruct (property (getHash key) st).
Qed.

(** A later write that names the policy key resolves the new policy. *)
Lemma resolvedPolicy_after_override (policyKey : jsval) (policy : ICachePolicy.t)
    (context : option ContextOption) (inline : option ICachePolicy.t)
    (s : CacheManager.t) :
  truthy policyKey = true ->
  CacheManager.resolvedPolicy hash
    (Some (ICacheOptions.mk context (Some (PolicyKeyValue policyKey)) inline))
    (setCachePolicy policyKey policy s)
  = Some (Own policy).
Proof.
  intros Htruthy. unfold CacheManager.resolvedPolicy. simpl.
  rewrite Htruthy. unfold property. by rewrite lookup_insert_eq.
Qed.

End policy_override.

(** ** The write path *)

Section write_path.
Variable hash : jsval -> string.
Abbreviation getHash := (CacheManager.getHash hash).
Abbreviation getCacheItem := (CacheManager.getCacheItem hash).
Abbreviation setCacheItem := (CacheManager.setCacheItem hash).
Abbreviation has := (CacheManager.has hash).
Abbreviation get := (CacheManager.get hash).
Abbreviation set := (CacheManager.set hash).
Abbreviation set_store := (CacheManager.set_store hash).
Abbreviation resolvedPolicy := (CacheManager.resolvedPolicy hash).

Lemma set_returns_early (key value : jsval) (options : option ICacheOptions.t)
    (parameters : option (list jsval)) (now : Z) (s : CacheManager.t) :
  CacheManager.returnsEarly (resolvedPolicy options s) = true ->
  set key value options parameters now s = (Return tt, [], s).
Proof.
  unfold CacheManager.returnsEarly, CacheManager.resolvedPolicy, CacheManager.set.
  intros Hearly.
  repeat (case_match; simplify_eq/=; try done).
Qed.

Lemma set_throws_on_policy (key value : jsval) (options : option ICacheOptions.t)
    (parameters : option (list jsval)) (now : Z) (s : CacheManager.t) :
  CacheManager.throwsOnPolicy (resolvedPolicy options s) = true ->
  set key value options parameters now s = (ThrowTypeError, [], s).
Proof.
  unfold CacheManager.throwsOnPolicy, CacheManager.resolvedPolicy, CacheManager.set.
  intros Hthrows.
  repeat (case_match; simplify_eq/=; try done).
Qed.

(** A call of [set] that neither throws on the policy nor returns early
    stores an entry made of the key, the value, the clock reading and the
    evaluated context, [maxAge] and [sliding]. *)
Lemma set_stores (key value : jsval) (options : option ICacheOptions.t)
    (parameters : option (list jsval)) (now : Z) (s : CacheManager.t) :
  CacheManager.throwsOnPolicy (resolvedPolicy options s) = false ->
  CacheManager.returnsEarly (resolvedPolicy options s) = false ->
  exists policyKey,
    set key value options parameters now s =
      set_store key value (CacheManager.ownPolicy (resolvedPolicy options s))
        (ICacheItem.mk key value
           (CacheManager.evaluatedContext options parameters) policyKey
           ((fun p => CacheManager.evaluatedMaxAge p parameters)
              <$> CacheManager.ownPolicy (resolvedPolicy options s))
           (CacheManager.ownPolicy (resolvedPolicy options s) ≫= ICachePolicy.sliding)
           now now) s.
Proof.
  unfold CacheManager.throwsOnPolicy, CacheManager.returnsEarly,
    CacheManager.resolvedPolicy, CacheManager.set, CacheManager.ownPolicy,
    CacheManager.evaluatedContext, CacheManager.evaluatedMaxAge.
  intros Hthrows Hlate.
  repeat (case_match; simplify_eq/=; try done); by eexists.
Qed.

Lemma setCacheItem_storage (item : ICacheItem.t) (s : CacheManager.t) :
  CacheManager.storage (snd (setCacheItem item s))
    = <[getHash (ICacheItem.key item) := item]> (CacheManager.storage s).
Proof.
  unfold CacheManager.setCacheItem, MemoryCache.set.
  repeat (case_match; simplify_eq/=; try done).
Qed.

Lemma setCacheItem_policies (item : ICacheItem.t) (s : CacheManager.t) :
  CacheManager._policies (snd (setCacheItem item s)) = CacheManager._policies s.
Proof.
  unfold CacheManager.setCacheItem.
  repeat (case_match; simplify_eq/=; try done).
Qed.

Lemma setCacheItem_returns (item : ICacheItem.t) (s : CacheManager.t) :
  (forall context, ICacheItem.context item = Some context ->
     inherited context = false) ->
  fst (setCacheItem item s) = Return tt.
Proof.
  intros Hctx. unfold CacheManager.setCacheItem.
  destruct (ICacheItem.context item) as [c|]; [|done].
  specialize (Hctx c eq_refl). unfold property.
  destruct (CacheManager._contexts s !! c); [done|]. by rewrite Hctx.
Qed.

Lemma setCacheItem_lookup (item : ICacheItem.t) (s : CacheManager.t) :
  CacheManager.storage (snd (setCacheItem item s)) !! getHash (ICacheItem.key item)
    = Some item.
Proof. rewrite setCacheItem_storage. apply lookup_insert_eq. Qed.

Lemma setCacheItem_lookup_ne (item : ICacheItem.t) (s : CacheManager.t) (h : string) :
  h <> getHash (ICacheItem.key item) ->
  CacheManager.storage (snd (setCacheItem item s)) !! h = CacheManager.storage s !! h.
Proof. intros Hne. rewrite setCacheItem_storage. by apply lookup_insert_ne. Qed.

Lemma set_store_state (key value : jsval) (policy : option ICachePolicy.t)
    (item : ICacheItem.t) (s : CacheManager.t) :
  snd (set_store key value policy item s) = snd (setCacheItem item s).
Proof.
  unfold CacheManager.set_store. by destruct (setCacheItem item s).
Qed.

Lemma set_store_completion (key value : jsval) (policy : option ICachePolicy.t)
    (item : ICacheItem.t) (s : CacheManager.t) :
  fst (fst (set_store key value policy item s)) = fst (setCacheItem item s).
Proof.
  unfold CacheManager.set_store. by destruct (setCacheItem item s).
Qed.

(** The handlers of a call of [set] that reaches [setCacheItem]. *)
Lemma set_store_effects (key value : jsval) (policy : option ICachePolicy.t)
    (item : ICacheItem.t) (s : CacheManager.t) :
  snd (fst (set_store key value policy item s)) =
    match value with
    | VPromise p =>
        if match policy with
           | Some policy => truthy_flag (ICachePolicy.keepRejectedPromise policy)
           | None => false
           end
        then [] else [CatchAttached p key]
    | _ => []
    end.
Proof.
  unfold CacheManager.set_store. by destruct (setCacheItem item s).
Qed.

Lemma set_storage_ne (key value : jsval) (options : option ICacheOptions.t)
    (parameters : option (list jsval)) (now : Z) (s : CacheManager.t) (h : string) :
  h <> getHash key ->
  CacheManager.storage (snd (set key value options parameters now s)) !! h
    = CacheManager.storage s !! h.
Proof.
  intros Hne.
  destruct (CacheManager.throwsOnPolicy (resolvedPolicy options s)) eqn:Hthrows.
  { by rewrite (set_throws_on_policy key value options parameters now s Hthrows). }
  destruct (CacheManager.returnsEarly (resolvedPolicy options s)) eqn:Hearly.
  - by rewrite (set_returns_early key value options parameters now s Hearly).
  - destruct (set_stores key value options parameters now s Hthrows Hearly)
      as [pk ->].
    rewrite set_store_state. by apply setCacheItem_lookup_ne.
Qed.

Lemma set_policies (key value : jsval) (options : option ICacheOptions.t)
    (parameters : option (list jsval)) (now : Z) (s : CacheManager.t) :
  CacheManager._policies (snd (set key value options parameters now s))
    = CacheManager._policies s.
Proof.
  destruct (CacheManager.throwsOnPolicy (resolvedPolicy options s)) eqn:Hthrows.
  { by rewrite (set_throws_on_policy key value options parameters now s Hthrows). }
  destruct (CacheManager.returnsEarly (resolvedPolicy options s)) eqn:Hearly.
  - by rewrite (set_returns_early key value options parameters now s Hearly).
  - destruct (set_stores key value options parameters now s Hthrows Hearly)
      as [pk ->].
    rewrite set_store_state. apply setCacheItem_policies.
Qed.

(** When [maxAge] is the number 0 the call returns before anything is
    stored or attached. *)
Lemma set_maxAge_zero_number (key value : jsval) (options : option ICacheOptions.t)
    (parameters : option (list jsval)) (now : Z) (s : CacheManager.t)
    (policy : ICachePolicy.t) :
  resolvedPolicy options s = Some (Own policy) ->
  ICachePolicy.maxAge policy = MaxAgeNumber 0 ->
  set key value options parameters now s = (Return tt, [], s).
Proof.
  intros Hp Hm. apply set_returns_early.
  unfold CacheManager.returnsEarly. by rewrite Hp, Hm.
Qed.

(** What [set] wrote at [now] is found, unexpired, by a read at [later]. *)
Lemma set_then_found (key value : jsval) (options : option ICacheOptions.t)
    (parameters : option (list jsval)) (now later : Z) (s : CacheManager.t) :
  CacheManager.throwsOnPolicy (resolvedPolicy options s) = false ->
  CacheManager.returnsEarly (resolvedPolicy options s) = false ->
  (forall policy, resolvedPolicy options s = Some (Own policy) ->
     CacheManager.evaluatedMaxAge policy parameters = 0 \/
     later - now <= CacheManager.evaluatedMaxAge policy parameters) ->
  exists item,
    CacheManager.storage (snd (set key value options parameters now s))
      !! getHash key = Some item /\
    ICacheItem.value item = value /\
    ICacheItem.context item = CacheManager.evaluatedContext options parameters /\
    expired later item (Some later) = false.
Proof.
  intros Hthrows Hlate Hage.
  destruct (set_stores key value options parameters now s Hthrows Hlate) as [pk ->].
  rewrite set_store_state. eexists. split; [apply setCacheItem_lookup|].
  split; [done|]. split; [done|]. unfold expired. simpl.
  destruct (resolvedPolicy options s) as [[policy|n]|]; [|done|done]. simpl.
  destruct (Hage policy eq_refl) as [-> | Hle]; [done|].
  destruct (_ =? 0); [done|].
  destruct (truthy_flag _); rewrite Z.gtb_ltb, Z.ltb_ge; lia.
Qed.

(** C4, as amended.  [set(K, V)] followed immediately (at the same clock
    reading) by [get(K)] returns V itself, provided the resolved policy
    does not set [maxAge] to 0 and does not set it to a negative number
    either (the entry would be expired as soon as it is written): no
    policy is resolved, or one whose [maxAge] evaluates to a positive
    number.  The statement is for policy keys and contexts that are not
    names of members of [Object.prototype], on which [set] throws.
    The manager is a [plain] one: none of its dictionaries was written
    under "__proto__". *)
Theorem set_then_get (key value : jsval) (options : option ICacheOptions.t)
    (parameters : option (list jsval)) (now : Z) (s : CacheManager.t)
    (Hplain : CacheManager.plain s) :
  (resolvedPolicy options s = None \/
   exists policy,
     resolvedPolicy options s = Some (Own policy) /\
     0 < CacheManager.evaluatedMaxAge policy parameters) ->
  (forall context,
     CacheManager.evaluatedContext options parameters = Some context ->
     inherited context = false) ->
  fst (fst (set key value options parameters now s)) = Return tt /\
  fst (get key now (snd (set key value options parameters now s))) = value.
Proof.
  intros Hpolicy Hcontext.
  assert (Hthrows : CacheManager.throwsOnPolicy (resolvedPolicy options s) = false).
  { by destruct Hpolicy as [-> | (policy & -> & _)]. }
  assert (Hlate : CacheManager.returnsEarly (resolvedPolicy options s) = false).
  { destruct Hpolicy as [-> | (policy & -> & Hpos)]; [done|].
    unfold CacheManager.returnsEarly, CacheManager.evaluatedMaxAge in *.
    destruct (ICachePolicy.maxAge policy); [|done]. apply Z.eqb_neq. lia. }
  split.
  - destruct (set_stores key value options parameters now s Hthrows Hlate)
      as [pk ->].
    rewrite set_store_completion. by apply setCacheItem_returns.
  - destruct (set_then_found key value options parameters now now s Hthrows Hlate)
      as (item & Hstored & Hvalue & _ & Hfresh).
    { intros policy Hp. right.
      destruct Hpolicy as [Hnone | (policy' & Hp' & Hpos)]; [congruence|].
      rewrite Hp in Hp'. injection Hp' as <-. lia. }
    unfold CacheManager.get.
    by rewrite (getCacheItem_hit hash key now _ item Hstored Hfresh).
Qed.

End write_path.

Lemma set_then_get_witness :
  fst (CacheManager.get digest (VStr "k") 0
         (snd (CacheManager.set digest (VStr "k") (VRef 1)
                 (options_policy policy_100) None 0 CacheManager.new)))
    = VRef 1.
Proof.
  apply (set_then_get digest).
  - apply plain_new.
  - right. exists policy_100. split; [reflexivity|].
    unfold CacheManager.evaluatedMaxAge. simpl. lia.
  - intros context Hcontext. discriminate Hcontext.
Defined.

(** C4, as stated, fails for a negative [maxAge]: the policy does not set
    [maxAge] to 0, the entry is stored, and the read that follows at the
    same clock reading finds it expired (age 0 is greater than -1). *)
Lemma set_then_get_negative_maxAge :
  let options := options_policy policy_negative in
  let s := snd (CacheManager.set digest (VStr "k") (VRef 1) options None 0
                  CacheManager.new) in
  ICachePolicy.maxAge policy_negative <> MaxAgeNumber 0 /\
  CacheManager.evaluatedMaxAge policy_negative None <> 0 /\
  CacheManager.resolvedPolicy digest options CacheManager.new
    = Some (Own policy_negative) /\
  fst (CacheManager.get digest (VStr "k") 0 s) <> VRef 1.
Proof.
  split; [discriminate|]. split; [discriminate|]. split; [reflexivity|].
  vm_compute. discriminate.
Qed.

(** C3, on the code.  A policy whose [maxAge] is a function returning 0 is
    resolved, its [maxAge] evaluates to 0, and yet [set] stores an entry
    (with [maxAge] 0, which never expires): [has] is true afterwards, at
    every time. *)
Theorem set_maxAge_function_zero_is_stored :
  let options := options_policy policy_zero_function in
  let s := snd (CacheManager.set digest (VStr "k") (VRef 1) options (Some [])
                  0 CacheManager.new) in
  CacheManager.resolvedPolicy digest options CacheManager.new
    = Some (Own policy_zero_function) /\
  CacheManager.evaluatedMaxAge policy_zero_function (Some []) = 0 /\
  CacheManager.storage s !! "k"
    = Some (ICacheItem.mk (VStr "k") (VRef 1) None None (Some 0) None 0 0) /\
  (forall now, fst (CacheManager.has digest (VStr "k") now s) = true).
Proof.
  split; [reflexivity|]. split; [reflexivity|]. split; [reflexivity|].
  intros now. reflexivity.
Qed.

(** ** Removal *)

Section removal.
Variable hash : jsval -> string.
Abbreviation getHash := (CacheManager.getHash hash).
Abbreviation remove := (CacheManager.remove hash).
Abbreviation settleRejected := (CacheManager.settleRejected hash).

Lemma MemoryCache_remove_storage (h : string) (c : gmap string ICacheItem.t) :
  snd (MemoryCache.remove h c) = delete h c.
Proof.
  unfold MemoryCache.remove, property.
  destruct (c !! h) eqn:Hc; [done|].
  destruct (inherited h); simpl; [done | symmetry; by apply delete_id].
Qed.

(** Whatever way [remove] completes, the own entry is gone from the storage
    and no other entry is touched. *)
Lemma remove_storage (key : jsval) (s : CacheManager.t) :
  CacheManager.storage (snd (remove key s))
    = delete (getHash key) (CacheManager.storage s).
Proof.
  unfold CacheManager.remove.
  pose proof (MemoryCache_remove_storage (getHash key) (CacheManager.storage s)) as Hrm.
  destruct (MemoryCache.remove (getHash key) (CacheManager.storage s)) as [found st].
  simpl in Hrm. subst st.
  repeat (case_match; simplify_eq/=; try done).
Qed.

Lemma remove_policies (key : jsval) (s : CacheManager.t) :
  CacheManager._policies (snd (remove key s)) = CacheManager._policies s.
Proof.
  unfold CacheManager.remove.
  repeat (case_match; simplify_eq/=; try done).
Qed.

Lemma remove_absent (key : jsval) (s : CacheManager.t) :
  MemoryCache.get (getHash key) (CacheManager.storage s) = None ->
  fst (remove key s) = Return false /\
  CacheManager.storage (snd (remove key s)) = CacheManager.storage s /\
  CacheManager._contexts (snd (remove key s)) = CacheManager._contexts s.
Proof.
  intros Hnone. unfold CacheManager.remove, MemoryCache.remove.
  unfold MemoryCache.get in Hnone. by rewrite Hnone.
Qed.

Lemma settleRejected_cons (promise : positive) (handler : effect)
    (handlers : list effect) (s : CacheManager.t) :
  settleRejected promise (handler :: handlers) s =
    settleRejected promise handlers
      (match handler with
       | CatchAttached p key => if Pos.eqb p promise then snd (remove key s) else s
       | Invoked _ _ _ => s
       end).
Proof. reflexivity. Qed.

(** Settling a rejection only deletes entries. *)
Lemma settleRejected_absent (promise : positive) (handlers : list effect)
    (s : CacheManager.t) (h : string) :
  CacheManager.storage s !! h = None ->
  CacheManager.storage (settleRejected promise handlers s) !! h = None.
Proof.
  revert s. induction handlers as [|handler handlers IH]; intros s Hnone; [done|].
  rewrite settleRejected_cons. apply IH.
  destruct handler as [| p key]; [done|].
  destruct (Pos.eqb p promise); [|done].
  rewrite remove_storage. apply lookup_delete_None. by right.
Qed.

Lemma settleRejected_removes (promise : positive) (key : jsval)
    (handlers : list effect) (s : CacheManager.t) :
  CatchAttached promise key ∈ handlers ->
  CacheManager.storage (settleRejected promise handlers s) !! getHash key = None.
Proof.
  revert s. induction handlers as [|handler handlers IH]; intros s Hin.
  - by apply not_elem_of_nil in Hin.
  - rewrite settleRejected_cons. apply elem_of_cons in Hin as [<- | Hin].
    + rewrite Pos.eqb_refl. apply settleRejected_absent.
      rewrite remove_storage. apply lookup_delete_eq.
    + by apply IH.
Qed.

End removal.

(** ** Rejected promises *)

(** C9, on the code.  A promise is written under the key "toString" with no
    policy: the entry is stored and the handler attached.  When the promise
    rejects the handler removes the entry, and yet the key is not absent
    from the cache: [has("toString")] is true again, through the member of
    that name inherited from [Object.prototype], and a function wrapped
    under that key is answered from it ([undefined]) without being
    invoked, so the computation is not retried.  And a promise written
    with the policy key "toString" gets no handler, although no policy
    sets [keepRejectedPromise]: [set] takes the inherited member for the
    policy and throws. *)
Theorem rejected_promise_not_retried :
  let written :=
    CacheManager.set digest (VStr "toString") (VPromise 7) None None 0
      CacheManager.new in
  let settled :=
    CacheManager.settleRejected digest 7 (snd (fst written)) (snd written) in
  fst written = (Return tt, [CatchAttached 7 (VStr "toString")]) /\
  CacheManager.storage (snd written) !! "toString"
    = Some (ICacheItem.mk (VStr "toString") (VPromise 7) None None None None 0 0) /\
  CacheManager.storage settled !! "toString" = None /\
  (forall now,
     CacheManager.has digest (VStr "toString") now settled = (true, settled) /\
     CacheManager.wrap digest getData_a None (Some (fun _ => VStr "toString"))
       VUndefined [] now now settled
       = (Return VUndefined, [], settled)) /\
  CacheManager.set digest (VStr "k") (VPromise 7)
    (Some (ICacheOptions.mk None (Some (PolicyKeyValue (VStr "toString"))) None))
    None 0 CacheManager.new
    = (ThrowTypeError, [], CacheManager.new).
Proof.
  split; [reflexivity|]. split; [reflexivity|]. split; [reflexivity|].
  split; [|reflexivity]. intros now. split; reflexivity.
Qed.

Section rejected_promise.
Variable hash : jsval -> string.
Abbreviation getHash := (CacheManager.getHash hash).
Abbreviation getCacheItem := (CacheManager.getCacheItem hash).
Abbreviation set := (CacheManager.set hash).
Abbreviation resolvedPolicy := (CacheManager.resolvedPolicy hash).
Abbreviation settleRejected := (CacheManager.settleRejected hash).

(** X19. A write [set(key, promise, ...)] under a key whose hash is not
    "__proto__" does one of three things.  It throws, storing and attaching
    nothing, when the policy key names a member of [Object.prototype]; it
    returns early, storing and attaching nothing, when the resolved
    [maxAge] is the number 0; otherwise it stores an entry holding the
    promise.  In the last case, if the resolved policy does not set
    [keepRejectedPromise], exactly one handler is attached, on that promise
    and for the original key, and once the promise has rejected and its
    handlers have run, in whatever [plain] state the manager is by then,
    no entry is stored under the key, and the next read is a miss unless
    its hash names a member of [Object.prototype]; if the policy sets
    [keepRejectedPromise], no handler is attached and the rejection
    changes nothing.
    The manager is a [plain] one: none of its dictionaries was written
    under "__proto__". *)
Theorem set_promise_rejection (key : jsval) (promise : positive)
    (options : option ICacheOptions.t) (parameters : option (list jsval))
    (now : Z) (s : CacheManager.t)
    (Hplain : CacheManager.plain s) :
  getHash key <> "__proto__" ->
  let written := set key (VPromise promise) options parameters now s in
  (CacheManager.throwsOnPolicy (resolvedPolicy options s) = true ->
     written = (ThrowTypeError, [], s)) /\
  (CacheManager.returnsEarly (resolvedPolicy options s) = true ->
     written = (Return tt, [], s)) /\
  (CacheManager.throwsOnPolicy (resolvedPolicy options s) = false ->
   CacheManager.returnsEarly (resolvedPolicy options s) = false ->
     (exists item,
        CacheManager.storage (snd written) !! getHash key = Some item /\
        ICacheItem.value item = VPromise promise) /\
     (CacheManager.keepsRejectedPromise (resolvedPolicy options s) = false ->
        snd (fst written) = [CatchAttached promise key] /\
        forall handlers later,
          CacheManager.plain later ->
          CatchAttached promise key ∈ handlers ->
          CacheManager.storage (settleRejected promise handlers later)
            !! getHash key = None /\
          (inherited (getHash key) = false ->
           forall time,
             fst (getCacheItem key time (settleRejected promise handlers later))
               = None)) /\
     (CacheManager.keepsRejectedPromise (resolvedPolicy options s) = true ->
        snd (fst written) = [] /\
        forall later, settleRejected promise (snd (fst written)) later = later)).
Proof.
  intros _ written. subst written.
  split; [apply set_throws_on_policy|]. split; [apply set_returns_early|].
  intros Hthrows Hlate.
  destruct (set_stores hash key (VPromise promise) options parameters now s
              Hthrows Hlate) as [pk ->].
  set (item := ICacheItem.mk _ _ _ _ _ _ _ _).
  assert (Hkeep : match CacheManager.ownPolicy (resolvedPolicy options s) with
                  | Some policy => truthy_flag (ICachePolicy.keepRejectedPromise policy)
                  | None => false
                  end = CacheManager.keepsRejectedPromise (resolvedPolicy options s)).
  { by destruct (resolvedPolicy options s) as [[p|n]|]. }
  split; [|split].
  - exists item. split; [|done].
    rewrite set_store_state. apply (setCacheItem_lookup hash item s).
  - intros Hdrop. rewrite set_store_effects, Hkeep, Hdrop. split; [done|].
    intros handlers later _ Hin.
    pose proof (settleRejected_removes hash promise key handlers later Hin) as Hgone.
    split; [done|]. intros Hord time.
    by rewrite (getCacheItem_absent hash key time _ Hgone Hord).
  - intros Hkept. rewrite set_store_effects, Hkeep, Hkept. done.
Qed.

End rejected_promise.

Lemma set_promise_rejection_witness :
  let written :=
    CacheManager.set digest (VStr "k") (VPromise 7) None None 0 CacheManager.new in
  let kept :=
    CacheManager.set digest (VStr "k") (VPromise 7) (options_policy policy_keep)
      None 0 CacheManager.new in
  (snd (fst written) = [CatchAttached 7 (VStr "k")] /\
   CacheManager.storage
     (CacheManager.settleRejected digest 7 (snd (fst written)) (snd written)) !! "k"
     = None) /\
  (snd (fst kept) = [] /\
   CacheManager.settleRejected digest 7 (snd (fst kept)) (snd kept) = snd kept).
Proof.
  intros written kept. split.
  - destruct (set_promise_rejection digest (VStr "k") 7 None None 0 CacheManager.new
                plain_new) as (_ & _ & Hstored); [discriminate|].
    destruct (Hstored eq_refl eq_refl) as (_ & Hdrop & _).
    destruct (Hdrop eq_refl) as [Heff Hgone]. split; [exact Heff|].
    apply (Hgone (snd (fst written)) (snd written)).
    + split; [|split]; vm_compute; reflexivity.
    + subst written. rewrite Heff. apply list_elem_of_singleton. reflexivity.
  - destruct (set_promise_rejection digest (VStr "k") 7 (options_policy policy_keep)
                None 0 CacheManager.new plain_new) as (_ & _ & Hstored);
      [discriminate|].
    destruct (Hstored eq_refl eq_refl) as (_ & _ & Hkeep).
    destruct (Hkeep eq_refl) as [Heff Hsame]. split; [exact Heff|].
    apply Hsame.
Defined.

(** ** The context registry *)

Section context_registry.
Variable hash : jsval -> string.
Abbreviation getHash := (CacheManager.getHash hash).
Abbreviation remove := (CacheManager.remove hash).
Abbreviation removeContext := (CacheManager.removeContext).

(** The explicit [remove] takes the hash out of the set of the entry's
    context. *)
Lemma remove_unregisters (key : jsval) (s : CacheManager.t) (item : ICacheItem.t)
    (context : string) (hashes : gset string) :
  CacheManager.storage s !! getHash key = Some item ->
  ICacheItem.context item = Some context ->
  context <> "" ->
  CacheManager._contexts s !! context = Some hashes ->
  fst (remove key s) = Return true /\
  CacheManager.storage (snd (remove key s)) !! getHash key = None /\
  CacheManager._contexts (snd (remove key s)) !! context
    = Some (hashes ∖ {[getHash key]}).
Proof.
  intros Hlook Hctx Hne Hreg.
  unfold CacheManager.remove, MemoryCache.remove.
  rewrite (property_own _ _ _ Hlook), Hctx.
  destruct (String.eqb_spec context "") as [|_]; [done|].
  rewrite (property_own _ _ _ Hreg). simpl. split; [done|].
  split; [apply lookup_delete_eq | apply lookup_insert_eq].
Qed.

(** The loop of [removeContext] deletes the listed hashes and no other. *)
Lemma remove_listed_lookup (hashes : gset string) (st : gmap string ICacheItem.t)
    (h : string) :
  set_fold (fun keyHash st => snd (MemoryCache.remove keyHash st)) st hashes !! h
    = if decide (h ∈ hashes) then None else st !! h.
Proof.
  revert h.
  refine (set_fold_ind_L
            (fun (r : gmap string ICacheItem.t) (X : gset string) =>
               forall h, r !! h = if decide (h ∈ X) then None else st !! h)
            _ st _ _ hashes).
  - intros h. by rewrite decide_False by set_solver.
  - intros x X r Hx IH h. rewrite MemoryCache_remove_storage.
    destruct (decide (h = x)) as [->|Hhx].
    + rewrite lookup_delete_eq. by rewrite decide_True by set_solver.
    + rewrite lookup_delete_ne by done. rewrite IH.
      destruct (decide (h ∈ X)) as [Hin|Hout].
      * rewrite decide_True; [done|]. apply elem_of_union. by right.
      * rewrite decide_False; [done|]. intros [Heq|Hin]%elem_of_union; [|done].
        by apply elem_of_singleton in Heq.
Qed.

(** X20. [removeContext(context)] goes by the registry.  If a set is
    registered under the context, it returns after deleting from the
    storage exactly the entries whose hashes are listed in the set, and
    the registry entry of the context; the entries under other hashes,
    the other contexts and the policies are as before.  If nothing is
    registered and the context is not the name of a member of
    [Object.prototype], it returns and nothing changes; if it is such a
    name, it throws a [TypeError] and nothing changes.
    The manager is a [plain] one: none of its dictionaries was written
    under "__proto__". *)
Theorem removeContext_correct (context : string) (s : CacheManager.t)
    (Hplain : CacheManager.plain s) :
  (forall hashes, CacheManager._contexts s !! context = Some hashes ->
     fst (removeContext context s) = Return tt /\
     (forall h, h ∈ hashes ->
        CacheManager.storage (snd (removeContext context s)) !! h = None) /\
     (forall h, h ∉ hashes ->
        CacheManager.storage (snd (removeContext context s)) !! h
          = CacheManager.storage s !! h) /\
     CacheManager._contexts (snd (removeContext context s))
       = delete context (CacheManager._contexts s) /\
     CacheManager._policies (snd (removeContext context s))
       = CacheManager._policies s) /\
  (CacheManager._contexts s !! context = None -> inherited context = false ->
     removeContext context s = (Return tt, s)) /\
  (CacheManager._contexts s !! context = None -> inherited context = true ->
     removeContext context s = (ThrowTypeError, s)).
Proof.
  unfold CacheManager.removeContext. split; [|split].
  - intros hashes Hreg. rewrite (property_own _ _ _ Hreg). simpl.
    split; [done|]. repeat split.
    + intros h Hin. rewrite remove_listed_lookup. by rewrite decide_True.
    + intros h Hnotin. rewrite remove_listed_lookup. by rewrite decide_False.
  - intros Hnone Hin. by rewrite (property_undefined _ _ Hnone Hin).
  - intros Hnone Hin. by rewrite (property_inherited _ _ Hnone Hin).
Qed.

End context_registry.

Lemma removeContext_correct_witness :
  let s :=
    snd (CacheManager.set digest (VStr "b") (VRef 2) (options_context "B") None 0
           (snd (CacheManager.set digest (VStr "a") (VRef 1) (options_context "A")
                   None 0 CacheManager.new))) in
  CacheManager.storage (snd (CacheManager.removeContext "A" s)) !! "a" = None /\
  CacheManager.storage (snd (CacheManager.removeContext "A" s)) !! "b"
    = CacheManager.storage s !! "b" /\
  CacheManager.removeContext "Z" s = (Return tt, s) /\
  CacheManager.removeContext "constructor" s = (ThrowTypeError, s).
Proof.
  intros s.
  assert (Hplain : CacheManager.plain s) by (split; [|split]; vm_compute; reflexivity).
  destruct (removeContext_correct "A" s Hplain) as (Hknown & _).
  destruct (removeContext_correct "Z" s Hplain) as (_ & Hunknown & _).
  destruct (removeContext_correct "constructor" s Hplain) as (_ & _ & Hthrows).
  destruct (Hknown {[ "a" ]} eq_refl) as (_ & Hin & Hout & _).
  split; [|split; [|split]].
  - apply Hin. vm_compute. reflexivity.
  - apply Hout. vm_compute. discriminate.
  - apply Hunknown; reflexivity.
  - apply Hthrows; reflexivity.
Defined.

(** C7, on the code.  A key written under context "A" and written again
    under context "B" stays listed under "A": the registry is not brought
    up to date when an entry is replaced, no more than when it is evicted
    on a read.  [removeContext("A")] then deletes an entry tagged with
    another context.  And for a context that was never registered but
    names a member of [Object.prototype], [removeContext] is not a no-op:
    it throws. *)
Theorem removeContext_deletes_other_context :
  let s :=
    snd (CacheManager.set digest (VStr "k") (VRef 2) (options_context "B") None 1
           (snd (CacheManager.set digest (VStr "k") (VRef 1) (options_context "A")
                   None 0 CacheManager.new))) in
  CacheManager.storage s !! "k"
    = Some (ICacheItem.mk (VStr "k") (VRef 2) (Some "B") None None None 1 1) /\
  CacheManager.storage (snd (CacheManager.removeContext "A" s)) !! "k" = None /\
  fst (CacheManager.removeContext "constructor" CacheManager.new) = ThrowTypeError.
Proof.
  split; [|split]; vm_compute; reflexivity.
Qed.

(** C5, on the code.  An entry written with context "A" and [maxAge] 100 is
    read after it has expired: [getCacheItem] deletes it from the storage,
    and its hash is still in the set registered under "A".  A later write
    of the same key without a context is then deleted by
    [removeContext("A")]. *)
Theorem lazy_eviction_keeps_context_hash :
  let s1 :=
    snd (CacheManager.set digest (VStr "k") (VRef 1)
           (options_context_policy "A" policy_100) None 0 CacheManager.new) in
  let s2 := snd (CacheManager.getCacheItem digest (VStr "k") 101 s1) in
  let s3 := snd (CacheManager.set digest (VStr "k") (VRef 2) None None 102 s2) in
  CacheManager.storage s1 !! "k"
    = Some (ICacheItem.mk (VStr "k") (VRef 1) (Some "A") None (Some 100) None 0 0) /\
  fst (CacheManager.getCacheItem digest (VStr "k") 101 s1) = None /\
  CacheManager.storage s2 !! "k" = None /\
  (exists hashes, CacheManager._contexts s2 !! "A" = Some hashes /\ "k" ∈ hashes) /\
  CacheManager.storage s3 !! "k"
    = Some (ICacheItem.mk (VStr "k") (VRef 2) None None None None 102 102) /\
  CacheManager.storage (snd (CacheManager.removeContext "A" s3)) !! "k" = None.
Proof.
  split; [reflexivity|]. split; [reflexivity|]. split; [reflexivity|].
  split; [|split; vm_compute; reflexivity].
  exists ({[ "k" ]} ∪ ∅). split; [reflexivity | set_solver].
Qed.

(** ** Wrapped functions *)

Section wrapping.
Variable hash : jsval -> string.
Abbreviation getHash := (CacheManager.getHash hash).
Abbreviation getCacheItem := (CacheManager.getCacheItem hash).
Abbreviation set := (CacheManager.set hash).
Abbreviation wrap := (CacheManager.wrap hash).

(** A call of a wrapped function that hits an own entry. *)
Lemma wrap_hit (target : Callable) (options : option ICacheOptions.t)
    (getKey : option (list jsval -> jsval)) (this : jsval) (parameters : list jsval)
    (now_get now_set : Z) (s : CacheManager.t) (e : ICacheItem.t) :
  let key :=
    match getKey with
    | Some getKey => getKey parameters
    | None => CacheManager.defaultKey target parameters
    end in
  CacheManager.storage s !! getHash key = Some e ->
  expired now_get e (Some now_get) = false ->
  wrap target options getKey this parameters now_get now_set s
    = (Return (ICacheItem.value e), [], snd (getCacheItem key now_get s)).
Proof.
  intros key Hlook Hfresh. unfold CacheManager.wrap. fold key.
  by rewrite (getCacheItem_hit hash key now_get s e Hlook Hfresh).
Qed.

(** A call of a wrapped function that misses. *)
Lemma wrap_miss (target : Callable) (options : option ICacheOptions.t)
    (getKey : option (list jsval -> jsval)) (this : jsval) (parameters : list jsval)
    (now_get now_set : Z) (s : CacheManager.t) :
  let key :=
    match getKey with
    | Some getKey => getKey parameters
    | None => CacheManager.defaultKey target parameters
    end in
  let written :=
    set key (fn_apply target this parameters) options (Some parameters) now_set
      (snd (getCacheItem key now_get s)) in
  fst (getCacheItem key now_get s) = None ->
  wrap target options getKey this parameters now_get now_set s
    = (match fst (fst written) with
       | Return _ => Return (fn_apply target this parameters)
       | ThrowTypeError => ThrowTypeError
       end,
       Invoked (fn_name target) this parameters :: snd (fst written),
       snd written).
Proof.
  intros key written Hmiss. subst written. unfold CacheManager.wrap. fold key.
  destruct (getCacheItem key now_get s) as [[found|] s1]; [done|]. simpl.
  by destruct (set key _ options (Some parameters) now_set s1) as [[c e] s2].
Qed.

Lemma wrap_storage_ne (target : Callable) (options : option ICacheOptions.t)
    (getKey : option (list jsval -> jsval)) (this : jsval) (parameters : list jsval)
    (now_get now_set : Z) (s : CacheManager.t) (h : string) :
  h <> getHash (match getKey with
                | Some getKey => getKey parameters
                | None => CacheManager.defaultKey target parameters
                end) ->
  CacheManager.storage
    (snd (wrap target options getKey this parameters now_get now_set s)) !! h
    = CacheManager.storage s !! h.
Proof.
  intros Hne. unfold CacheManager.wrap.
  set (key := match getKey with Some _ => _ | None => _ end) in *.
  pose proof (getCacheItem_storage_ne hash key now_get s h Hne) as Hget.
  destruct (getCacheItem key now_get s) as [[[item|n]|] s1]; simpl in *;
    [done|done|].
  pose proof (set_storage_ne hash key (fn_apply target this parameters) options
                (Some parameters) now_set s1 h Hne) as Hset.
  destruct (set key _ options (Some parameters) now_set s1) as [[c effects] s2].
  simpl in *. congruence.
Qed.

(** No call of [set] invokes a wrapped target. *)
Lemma set_invokes_nothing (key value : jsval) (options : option ICacheOptions.t)
    (parameters : option (list jsval)) (now : Z) (s : CacheManager.t)
    (name : string) (receiver : jsval) (arguments : list jsval) :
  Invoked name receiver arguments
    ∉ snd (fst (set key value options parameters now s)).
Proof.
  destruct (CacheManager.throwsOnPolicy (CacheManager.resolvedPolicy hash options s))
    eqn:Hthrows.
  { rewrite (set_throws_on_policy hash key value options parameters now s Hthrows).
    apply not_elem_of_nil. }
  destruct (CacheManager.returnsEarly (CacheManager.resolvedPolicy hash options s))
    eqn:Hearly.
  { rewrite (set_returns_early hash key value options parameters now s Hearly).
    apply not_elem_of_nil. }
  destruct (set_stores hash key value options parameters now s Hthrows Hearly)
    as [pk ->].
  rewrite set_store_effects.
  destruct value; try apply not_elem_of_nil.
  destruct (match CacheManager.ownPolicy _ with Some _ => _ | None => _ end);
    [apply not_elem_of_nil|].
  intros Hin%list_elem_of_singleton. discriminate.
Qed.


End wrapping.



(** * Further properties of the code *)

(** ** The registry invariant *)

Section registry_invariant.
Variable hash : jsval -> string.
Abbreviation getHash := (CacheManager.getHash hash).

Lemma covers_new : registry_covers CacheManager.new.
Proof.
  intros h e context Hlook. unfold CacheManager.new in Hlook. simpl in Hlook.
  by rewrite lookup_empty in Hlook.
Qed.

Lemma covers_setCacheItem (item : ICacheItem.t) (s : CacheManager.t) :
  registry_covers s ->
  registry_covers (snd (CacheManager.setCacheItem hash item s)).
Proof.
  intros Hcov h e context. unfold CacheManager.setCacheItem, MemoryCache.set.
  destruct (ICacheItem.context item) as [c|] eqn:Hctx; simpl.
  - unfold property.
    destruct (CacheManager._contexts s !! c) as [listed|] eqn:Hc; simpl;
      [|destruct (inherited c) eqn:Hinh; simpl].
    + destruct (decide (h = getHash (ICacheItem.key item))) as [->|Hne].
      * rewrite lookup_insert_eq. intros [= <-] Hcx _. rewrite Hctx in Hcx.
        injection Hcx as <-. rewrite lookup_insert_eq. eexists. split; [done|].
        apply elem_of_union. left. by apply elem_of_singleton.
      * rewrite lookup_insert_ne by done. intros Hlook Hcx Hord.
        destruct (Hcov h e context Hlook Hcx Hord) as (hashes & Hreg & Hin).
        destruct (decide (c = context)) as [->|Hcne].
        -- rewrite lookup_insert_eq. rewrite Hc in Hreg. injection Hreg as ->.
           eexists. split; [done|]. apply elem_of_union. by right.
        -- rewrite lookup_insert_ne by done. by exists hashes.
    + destruct (decide (h = getHash (ICacheItem.key item))) as [->|Hne].
      * rewrite lookup_insert_eq. intros [= <-] Hcx Hord. congruence.
      * rewrite lookup_insert_ne by done. apply Hcov.
    + destruct (decide (h = getHash (ICacheItem.key item))) as [->|Hne].
      * rewrite lookup_insert_eq. intros [= <-] Hcx _. rewrite Hctx in Hcx.
        injection Hcx as <-. rewrite lookup_insert_eq. eexists. split; [done|].
        apply elem_of_union. left. by apply elem_of_singleton.
      * rewrite lookup_insert_ne by done. intros Hlook Hcx Hord.
        destruct (Hcov h e context Hlook Hcx Hord) as (hashes & Hreg & Hin).
        destruct (decide (c = context)) as [->|Hcne]; [congruence|].
        rewrite lookup_insert_ne by done. by exists hashes.
  - destruct (decide (h = getHash (ICacheItem.key item))) as [->|Hne].
    + rewrite lookup_insert_eq. intros [= <-] Hcx. congruence.
    + rewrite lookup_insert_ne by done. apply Hcov.
Qed.

Lemma covers_getCacheItem (key : jsval) (now : Z) (s : CacheManager.t) :
  registry_covers s ->
  registry_covers (snd (CacheManager.getCacheItem hash key now s)).
Proof.
  intros Hcov. unfold CacheManager.getCacheItem, MemoryCache.get.
  destruct (property (getHash key) (CacheManager.storage s)) as [[item|n]|] eqn:Hp;
    [|done|done].
  apply property_Own in Hp. simpl.
  destruct (expired now item (Some now)); intros h e context; simpl.
  - rewrite MemoryCache_remove_storage.
    intros [_ Hlook]%lookup_delete_Some. by apply Hcov.
  - destruct (decide (h = getHash key)) as [->|Hne].
    + rewrite lookup_insert_eq. intros [= <-]. simpl. by apply Hcov.
    + rewrite lookup_insert_ne by done. apply Hcov.
Qed.

Lemma covers_delete (key : jsval) (s : CacheManager.t)
    (c : gmap string (gset string)) :
  registry_covers s ->
  (forall context hashes,
     CacheManager._contexts s !! context = Some hashes ->
     exists hashes',
       c !! context = Some hashes' /\
       forall h, h ∈ hashes -> h <> getHash key -> h ∈ hashes') ->
  registry_covers
    (CacheManager.mk (delete (getHash key) (CacheManager.storage s))
       (CacheManager._policies s) c).
Proof.
  intros Hcov Hc h e context. simpl.
  intros [Hne Hlook]%lookup_delete_Some Hcx Hord.
  destruct (Hcov h e context Hlook Hcx Hord) as (hashes & Hreg & Hin).
  destruct (Hc context hashes Hreg) as (hashes' & Hreg' & Hsub).
  exists hashes'. split; [done|]. apply Hsub; [done|]. congruence.
Qed.

Lemma covers_remove (key : jsval) (s : CacheManager.t) :
  registry_covers s -> registry_covers (snd (CacheManager.remove hash key s)).
Proof.
  intros Hcov. unfold CacheManager.remove.
  pose proof (MemoryCache_remove_storage (getHash key) (CacheManager.storage s)) as Hrm.
  destruct (MemoryCache.remove (getHash key) (CacheManager.storage s)) as [found st].
  simpl in Hrm. subst st.
  assert (Hsame : registry_covers
                    (CacheManager.with_storage
                       (delete (getHash key) (CacheManager.storage s)) s)).
  { apply covers_delete; [done|]. intros context hashes Hreg. by exists hashes. }
  destruct found as [[item|n]|]; [|done|done].
  destruct (ICacheItem.context item) as [c|]; [|done].
  destruct (String.eqb c ""); [done|].
  destruct (property c (CacheManager._contexts s)) as [[listed|n]|] eqn:Hp;
    [|done|done].
  apply property_Own in Hp. simpl. apply covers_delete; [done|].
  intros context hashes Hreg.
  destruct (decide (c = context)) as [->|Hcne].
  - rewrite lookup_insert_eq. eexists. split; [done|].
    rewrite Hp in Hreg. injection Hreg as ->. intros h Hin Hne.
    apply elem_of_difference. split; [done|]. by intros ?%elem_of_singleton.
  - rewrite lookup_insert_ne by done. by exists hashes.
Qed.

Lemma covers_removeContext (context : string) (s : CacheManager.t) :
  registry_covers s ->
  registry_covers (snd (CacheManager.removeContext context s)).
Proof.
  intros Hcov. unfold CacheManager.removeContext.
  destruct (property context (CacheManager._contexts s)) as [[listed|n]|] eqn:Hp;
    [|done|done].
  apply property_Own in Hp.
  intros h e c. simpl. rewrite remove_listed_lookup.
  destruct (decide (h ∈ listed)) as [|Hout]; [done|].
  intros Hlook Hc Hord.
  destruct (Hcov h e c Hlook Hc Hord) as (hashes & Hreg & Hin).
  destruct (decide (context = c)) as [->|Hne].
  - rewrite Hp in Hreg. by injection Hreg as ->.
  - rewrite lookup_delete_ne by done. by exists hashes.
Qed.

Lemma covers_set (key value : jsval) (options : option ICacheOptions.t)
    (parameters : option (list jsval)) (now : Z) (s : CacheManager.t) :
  registry_covers s ->
  registry_covers (snd (CacheManager.set hash key value options parameters now s)).
Proof.
  intros Hcov.
  destruct (CacheManager.throwsOnPolicy (CacheManager.resolvedPolicy hash options s))
    eqn:Hthrows.
  { by rewrite (set_throws_on_policy hash key value options parameters now s Hthrows). }
  destruct (CacheManager.returnsEarly (CacheManager.resolvedPolicy hash options s))
    eqn:Hearly.
  - by rewrite (set_returns_early hash key value options parameters now s Hearly).
  - destruct (set_stores hash key value options parameters now s Hthrows Hearly)
      as [pk ->].
    rewrite set_store_state. by apply covers_setCacheItem.
Qed.

Lemma covers_wrap (target : Callable) (options : option ICacheOptions.t)
    (getKey : option (list jsval -> jsval)) (this : jsval) (parameters : list jsval)
    (now_get now_set : Z) (s : CacheManager.t) :
  registry_covers s ->
  registry_covers
    (snd (CacheManager.wrap hash target options getKey this parameters
            now_get now_set s)).
Proof.
  intros Hcov. unfold CacheManager.wrap.
  set (key := match getKey with Some _ => _ | None => _ end).
  pose proof (covers_getCacheItem key now_get s Hcov) as Hget.
  destruct (CacheManager.getCacheItem hash key now_get s) as [[[item|n]|] s1];
    simpl in *; [done|done|].
  pose proof (covers_set key (fn_apply target this parameters) options
                (Some parameters) now_set s1 Hget) as Hset.
  by destruct (CacheManager.set hash key _ options (Some parameters) now_set s1)
    as [[c effects] s2].
Qed.

Lemma covers_settleRejected (promise : positive) (handlers : list effect)
    (s : CacheManager.t) :
  registry_covers s ->
  registry_covers (CacheManager.settleRejected hash promise handlers s).
Proof.
  revert s. induction handlers as [|handler handlers IH]; intros s Hcov; [done|].
  rewrite settleRejected_cons. apply IH.
  destruct handler as [| p key]; [done|].
  destruct (Pos.eqb p promise); [|done]. by apply covers_remove.
Qed.

Lemma plain_getCacheItem (key : jsval) (now : Z) (s : CacheManager.t) :
  getHash key <> "__proto__" ->
  CacheManager.plain s ->
  CacheManager.plain (snd (CacheManager.getCacheItem hash key now s)).
Proof.
  intros Hkey (Hst & Hpol & Hctx). split; [|split].
  - rewrite getCacheItem_storage_ne; [done | congruence].
  - by rewrite getCacheItem_policies.
  - by rewrite getCacheItem_contexts.
Qed.

Lemma plain_setCacheItem (item : ICacheItem.t) (s : CacheManager.t) :
  getHash (ICacheItem.key item) <> "__proto__" ->
  CacheManager.plain s ->
  CacheManager.plain (snd (CacheManager.setCacheItem hash item s)).
Proof.
  intros Hkey (Hst & Hpol & Hctx). split; [|split].
  - rewrite setCacheItem_lookup_ne; [done | congruence].
  - by rewrite setCacheItem_policies.
  - unfold CacheManager.setCacheItem, property.
    destruct (ICacheItem.context item) as [c|]; [|done].
    destruct (CacheManager._contexts s !! c) as [listed|] eqn:Hc; simpl;
      [|destruct (inherited c) eqn:Hinh; simpl; [done|]].
    + rewrite lookup_insert_ne; [done|]. intros ->. congruence.
    + rewrite lookup_insert_ne; [done|]. by apply inherited_proto.
Qed.

Lemma plain_set (key value : jsval) (options : option ICacheOptions.t)
    (parameters : option (list jsval)) (now : Z) (s : CacheManager.t) :
  getHash key <> "__proto__" ->
  CacheManager.plain s ->
  CacheManager.plain (snd (CacheManager.set hash key value options parameters now s)).
Proof.
  intros Hkey Hplain.
  destruct (CacheManager.throwsOnPolicy (CacheManager.resolvedPolicy hash options s))
    eqn:Hthrows.
  { by rewrite (set_throws_on_policy hash key value options parameters now s Hthrows). }
  destruct (CacheManager.returnsEarly (CacheManager.resolvedPolicy hash options s))
    eqn:Hearly.
  - by rewrite (set_returns_early hash key value options parameters now s Hearly).
  - destruct (set_stores hash key value options parameters now s Hthrows Hearly)
      as [pk ->].
    rewrite set_store_state. by apply plain_setCacheItem.
Qed.

Lemma plain_remove (key : jsval) (s : CacheManager.t) :
  CacheManager.plain s -> CacheManager.plain (snd (CacheManager.remove hash key s)).
Proof.
  intros (Hst & Hpol & Hctx). split; [|split].
  - rewrite remove_storage. apply lookup_delete_None. by right.
  - by rewrite remove_policies.
  - unfold CacheManager.remove.
    destruct (MemoryCache.remove (getHash key) (CacheManager.storage s))
      as [[[item|n]|] st]; [|done|done].
    destruct (ICacheItem.context item) as [c|]; [|done].
    destruct (String.eqb c ""); [done|].
    destruct (property c (CacheManager._contexts s)) as [[listed|n]|] eqn:Hp;
      [|done|done].
    apply property_Own in Hp. simpl.
    rewrite lookup_insert_ne; [done|]. intros ->. congruence.
Qed.

Lemma plain_removeContext (context : string) (s : CacheManager.t) :
  CacheManager.plain s ->
  CacheManager.plain (snd (CacheManager.removeContext context s)).
Proof.
  intros (Hst & Hpol & Hctx). unfold CacheManager.removeContext.
  destruct (property context (CacheManager._contexts s)) as [[listed|n]|];
    [|done|done].
  split; [|split]; simpl.
  - rewrite remove_listed_lookup. by destruct (decide _).
  - done.
  - apply lookup_delete_None. by right.
Qed.

Lemma plain_wrap (target : Callable) (options : option ICacheOptions.t)
    (getKey : option (list jsval -> jsval)) (this : jsval) (parameters : list jsval)
    (now_get now_set : Z) (s : CacheManager.t) :
  getHash (match getKey with
           | Some getKey => getKey parameters
           | None => CacheManager.defaultKey target parameters
           end) <> "__proto__" ->
  CacheManager.plain s ->
  CacheManager.plain
    (snd (CacheManager.wrap hash target options getKey this parameters
            now_get now_set s)).
Proof.
  intros Hkey Hplain. unfold CacheManager.wrap.
  set (key := match getKey with Some _ => _ | None => _ end) in *.
  pose proof (plain_getCacheItem key now_get s Hkey Hplain) as Hget.
  destruct (CacheManager.getCacheItem hash key now_get s) as [[[item|n]|] s1];
    simpl in *; [done|done|].
  pose proof (plain_set key (fn_apply target this parameters) options
                (Some parameters) now_set s1 Hkey Hget) as Hset.
  by destruct (CacheManager.set hash key _ options (Some parameters) now_set s1)
    as [[c effects] s2].
Qed.

Lemma plain_settleRejected (promise : positive) (handlers : list effect)
    (s : CacheManager.t) :
  CacheManager.plain s ->
  CacheManager.plain (CacheManager.settleRejected hash promise handlers s).
Proof.
  revert s. induction handlers as [|handler handlers IH]; intros s Hplain; [done|].
  rewrite settleRejected_cons. apply IH.
  destruct handler as [| p key]; [done|].
  destruct (Pos.eqb p promise); [|done]. by apply plain_remove.
Qed.

Lemma plain_step (s s' : CacheManager.t) :
  step hash s s' -> CacheManager.plain s -> CacheManager.plain s'.
Proof.
  intros Hstep Hplain. destruct Hstep.
  - destruct Hplain as (Hst & Hpol & Hctx). split; [done|]. split; [|done].
    simpl. by rewrite lookup_insert_ne.
  - by apply plain_getCacheItem.
  - by apply plain_setCacheItem.
  - unfold CacheManager.has. by destruct (MemoryCache.get _ _).
  - unfold CacheManager.get.
    pose proof (plain_getCacheItem key now s ltac:(done) Hplain) as Hget.
    by destruct (CacheManager.getCacheItem hash key now s) as [[[item|n]|] s1].
  - by apply plain_set.
  - by apply plain_remove.
  - by apply plain_removeContext.
  - by split; [|split; [apply Hplain|]].
  - by apply plain_wrap.
  - by apply plain_settleRejected.
Qed.

Lemma covers_step (s s' : CacheManager.t) :
  step hash s s' -> registry_covers s -> registry_covers s'.
Proof.
  intros Hstep Hcov. destruct Hstep.
  - intros h e context. apply Hcov.
  - by apply covers_getCacheItem.
  - by apply covers_setCacheItem.
  - unfold CacheManager.has. by destruct (MemoryCache.get _ _).
  - unfold CacheManager.get.
    pose proof (covers_getCacheItem key now s Hcov) as Hget.
    by destruct (CacheManager.getCacheItem hash key now s) as [[[item|n]|] s1].
  - by apply covers_set.
  - by apply covers_remove.
  - by apply covers_removeContext.
  - intros h e context Hlook. unfold CacheManager.clear, MemoryCache.clear in Hlook.
    simpl in Hlook. by rewrite lookup_empty in Hlook.
  - by apply covers_wrap.
  - by apply covers_settleRejected.
Qed.

(** X1. Whatever sequence of method calls and promise rejections a new
    manager has gone through, calls that threw included, every stored
    entry whose context is not the name of a member of [Object.prototype]
    is listed in the set registered under that context, and no dictionary
    has been written under "__proto__".  (The runs are those that do not
    write the storage or the policies under "__proto__" nor call
    [getCacheItem] on it.) *)
Theorem reachable_registry_covers (s : CacheManager.t) :
  reachable hash s -> registry_covers s /\ CacheManager.plain s.
Proof.
  induction 1 as [|s s' _ [IHcov IHplain] Hstep];
    [split; [apply covers_new | apply plain_new]|].
  split; [by apply (covers_step s s') | by apply (plain_step s s')].
Qed.

End registry_invariant.

Lemma reachable_registry_covers_witness :
  let s :=
    snd (CacheManager.set digest (VStr "k") (VRef 1) (options_context "A") None 0
           CacheManager.new) in
  registry_covers s /\ CacheManager.plain s.
Proof.
  intros s.
  apply (reachable_registry_covers digest).
  eapply reachable_step; [apply reachable_new | apply step_set]. discriminate.
Defined.

(** ** Removal on the states of a run *)

Section removal_on_runs.
Variable hash : jsval -> string.
Abbreviation getHash := (CacheManager.getHash hash).
Abbreviation has := (CacheManager.has hash).
Abbreviation remove := (CacheManager.remove hash).

(** X2. While the registry covers the storage (as it does all along a run
    of the manager), [remove(key)] of a key whose hash is not the name of
    a member of [Object.prototype], and whose entry, if there is one, is
    not tagged with such a name, throws nothing: it returns whether an
    entry was stored under the key's hash, expired or not.  Afterwards the
    key is absent, [has] is false at every time, and removing it again
    returns [false] and changes neither the storage nor the contexts.
    The manager is a [plain] one: none of its dictionaries was written
    under "__proto__". *)
Theorem remove_correct (key : jsval) (s : CacheManager.t)
    (Hplain : CacheManager.plain s) :
  registry_covers s ->
  inherited (getHash key) = false ->
  (forall e context,
     CacheManager.storage s !! getHash key = Some e ->
     ICacheItem.context e = Some context -> inherited context = false) ->
  let s' := snd (remove key s) in
  fst (remove key s)
    = Return (bool_decide (is_Some (CacheManager.storage s !! getHash key))) /\
  CacheManager.storage s' !! getHash key = None /\
  (forall now, fst (has key now s') = false) /\
  fst (remove key s') = Return false /\
  CacheManager.storage (snd (remove key s')) = CacheManager.storage s' /\
  CacheManager._contexts (snd (remove key s')) = CacheManager._contexts s'.
Proof.
  intros Hcov Hord Htag s'.
  assert (Hgone : CacheManager.storage s' !! getHash key = None).
  { subst s'. rewrite remove_storage. apply lookup_delete_eq. }
  split; [|split; [done|split]].
  - destruct (CacheManager.storage s !! getHash key) as [item|] eqn:Hitem.
    + rewrite bool_decide_eq_true_2 by done.
      unfold CacheManager.remove, MemoryCache.remove.
      rewrite (property_own _ _ _ Hitem).
      destruct (ICacheItem.context item) as [c|] eqn:Hc; [|done].
      destruct (String.eqb c ""); [done|].
      destruct (Hcov _ _ _ Hitem Hc (Htag _ _ eq_refl Hc)) as (hashes & Hreg & _).
      by rewrite (property_own _ _ _ Hreg).
    + rewrite bool_decide_eq_false_2 by (by intros [? ?]).
      apply remove_absent. by apply property_undefined.
  - intros now. by rewrite (has_absent hash key now s' Hgone Hord).
  - apply remove_absent. by apply property_undefined.
Qed.

(** X3. While the registry covers the storage, [removeContext(context)],
    for a context that is not the name of a member of [Object.prototype],
    returns and leaves no stored entry tagged with that context, and the
    context is no longer registered.
    The manager is a [plain] one: none of its dictionaries was written
    under "__proto__". *)
Theorem removeContext_clears_tag (context : string) (s : CacheManager.t)
    (Hplain : CacheManager.plain s) :
  registry_covers s ->
  inherited context = false ->
  fst (CacheManager.removeContext context s) = Return tt /\
  (forall h e,
     CacheManager.storage (snd (CacheManager.removeContext context s)) !! h = Some e ->
     ICacheItem.context e <> Some context) /\
  CacheManager._contexts (snd (CacheManager.removeContext context s)) !! context
    = None.
Proof.
  intros Hcov Hord. unfold CacheManager.removeContext, property. rewrite Hord.
  destruct (CacheManager._contexts s !! context) as [listed|] eqn:Hlisted; simpl.
  - split; [done|]. split; [|apply lookup_delete_eq].
    intros h e. rewrite remove_listed_lookup.
    destruct (decide (h ∈ listed)) as [|Hout]; [done|].
    intros Hlook Hc.
    destruct (Hcov h e context Hlook Hc Hord) as (hashes & Hreg & Hin).
    rewrite Hlisted in Hreg. by injection Hreg as ->.
  - split; [done|]. split; [|done]. intros h e Hlook Hc.
    destruct (Hcov h e context Hlook Hc Hord) as (hashes & Hreg & _). congruence.
Qed.

(** X4. An entry written by [set] with a context is deleted by
    [removeContext] of that context: both calls return, and afterwards
    nothing is stored under the key and [has] is false at every time.
    This is for a key whose hash and a context that are not names of
    members of [Object.prototype], and a write that neither throws on its
    policy nor returns early.
    The manager is a [plain] one: none of its dictionaries was written
    under "__proto__". *)
Theorem set_then_removeContext (key value : jsval)
    (options : option ICacheOptions.t) (parameters : option (list jsval))
    (now : Z) (s : CacheManager.t) (context : string)
    (Hplain : CacheManager.plain s) :
  inherited (getHash key) = false ->
  inherited context = false ->
  CacheManager.throwsOnPolicy (CacheManager.resolvedPolicy hash options s) = false ->
  CacheManager.returnsEarly (CacheManager.resolvedPolicy hash options s) = false ->
  CacheManager.evaluatedContext options parameters = Some context ->
  let written := CacheManager.set hash key value options parameters now s in
  let s' := snd (CacheManager.removeContext context (snd written)) in
  fst (fst written) = Return tt /\
  fst (CacheManager.removeContext context (snd written)) = Return tt /\
  CacheManager.storage s' !! getHash key = None /\
  (forall time, fst (has key time s') = false).
Proof.
  intros Hkey Hord Hthrows Hlate Hctx written s'. subst written s'.
  destruct (set_stores hash key value options parameters now s Hthrows Hlate)
    as [pk ->].
  rewrite set_store_state, set_store_completion. rewrite Hctx.
  set (item := ICacheItem.mk _ _ _ _ _ _ _ _).
  assert (Hreg : exists hashes,
            CacheManager._contexts (snd (CacheManager.setCacheItem hash item s))
              !! context = Some hashes /\ getHash key ∈ hashes).
  { unfold CacheManager.setCacheItem, property. simpl. rewrite Hord.
    destruct (CacheManager._contexts s !! context); simpl;
      rewrite lookup_insert_eq; eexists; (split; [done|]);
      apply elem_of_union; left; by apply elem_of_singleton. }
  destruct Hreg as (hashes & Hreg & Hin).
  assert (Hgone : CacheManager.storage
                    (snd (CacheManager.removeContext context
                            (snd (CacheManager.setCacheItem hash item s))))
                    !! getHash key = None).
  { unfold CacheManager.removeContext. rewrite (property_own _ _ _ Hreg). simpl.
    rewrite remove_listed_lookup. by rewrite decide_True. }
  split; [|split; [|split; [done|]]].
  - apply setCacheItem_returns. simpl. by intros c [= <-].
  - unfold CacheManager.removeContext. by rewrite (property_own _ _ _ Hreg).
  - intros time. by rewrite (has_absent hash key time _ Hgone Hkey).
Qed.

End removal_on_runs.

Lemma remove_correct_witness :
  let s :=
    snd (CacheManager.set digest (VStr "k") (VRef 1)
           (options_context_policy "A" policy_100) None 0 CacheManager.new) in
  fst (CacheManager.remove digest (VStr "k") s) = Return true /\
  fst (CacheManager.has digest (VStr "k") 500 s) = false /\
  fst (CacheManager.remove digest (VStr "z") s) = Return false.
Proof.
  intros s.
  assert (Hcov : registry_covers s) by (apply covers_set, covers_new).
  assert (Hplain : CacheManager.plain s) by (split; [|split]; vm_compute; reflexivity).
  destruct (remove_correct digest (VStr "k") s Hplain Hcov) as (Hk & _);
    [reflexivity | by intros e context [= <-] [= <-] |].
  destruct (remove_correct digest (VStr "z") s Hplain Hcov) as (Hz & _);
    [reflexivity | by intros e context [=] |].
  split; [exact Hk|]. split; [reflexivity | exact Hz].
Defined.

Lemma removeContext_clears_tag_witness :
  let s :=
    snd (CacheManager.set digest (VStr "k") (VRef 1) (options_context "A") None 0
           CacheManager.new) in
  CacheManager._contexts (snd (CacheManager.removeContext "A" s)) !! "A" = None.
Proof.
  intros s.
  assert (Hcov : registry_covers s) by (apply covers_set, covers_new).
  assert (Hplain : CacheManager.plain s) by (split; [|split]; vm_compute; reflexivity).
  apply (removeContext_clears_tag "A" s Hplain Hcov). reflexivity.
Defined.

Lemma set_then_removeContext_witness :
  CacheManager.storage
    (snd (CacheManager.removeContext "A"
            (snd (CacheManager.set digest (VStr "k") (VRef 1) (options_context "A")
                    None 0 CacheManager.new)))) !! "k" = None.
Proof.
  apply (set_then_removeContext digest (VStr "k") (VRef 1) (options_context "A")
           None 0 CacheManager.new "A" plain_new); reflexivity.
Defined.

(** ** Expiration over time *)

(** X5. Expiration is monotone in the time of the check: an entry expired
    at one time is expired at every later time. *)
Theorem expired_monotone (clock : Z) (e : ICacheItem.t) (t t' : Z) :
  expired clock e (Some t) = true -> t <= t' ->
  expired clock e (Some t') = true.
Proof.
  unfold expired. simpl. destruct (ICacheItem.maxAge e) as [m|]; [|done].
  destruct (m =? 0); [done|].
  destruct (truthy_flag (ICacheItem.sliding e)); rewrite !Z.gtb_gt; lia.
Qed.

Lemma expired_monotone_witness : expired 0 item_fixed (Some 500) = true.
Proof. apply (expired_monotone 0 item_fixed 101 500); [reflexivity | lia]. Defined.

Section reads_over_time.
Variable hash : jsval -> string.
Abbreviation getHash := (CacheManager.getHash hash).
Abbreviation getCacheItem := (CacheManager.getCacheItem hash).
Abbreviation has := (CacheManager.has hash).

(** X6. Reading does not prolong an entry that is not sliding: once the
    time since its creation exceeds its (non-zero) [maxAge], a read is a
    miss, whether or not the entry was read before, at any time.  This is
    for a key whose hash is not the name of a member of
    [Object.prototype] (a read of such a name finds that member once the
    entry is gone).
    The manager is a [plain] one: none of its dictionaries was written
    under "__proto__". *)
Theorem fixed_entry_not_prolonged (key : jsval) (s : CacheManager.t)
    (e : ICacheItem.t) (maxAge t1 t2 : Z)
    (Hplain : CacheManager.plain s) :
  inherited (getHash key) = false ->
  CacheManager.storage s !! getHash key = Some e ->
  ICacheItem.sliding e <> Some true ->
  ICacheItem.maxAge e = Some maxAge -> maxAge <> 0 ->
  t2 - ICacheItem.created e > maxAge ->
  fst (getCacheItem key t2 s) = None /\
  fst (getCacheItem key t2 (snd (getCacheItem key t1 s))) = None.
Proof.
  intros Hord Hlook Hfixed Hm Hz Hage.
  assert (Hexp : forall e', ICacheItem.maxAge e' = Some maxAge ->
                   ICacheItem.sliding e' = ICacheItem.sliding e ->
                   ICacheItem.created e' = ICacheItem.created e ->
                   expired t2 e' (Some t2) = true).
  { intros e' Hm' Hs' Hc'. unfold expired. rewrite Hm', Hs', Hc'. simpl.
    destruct (Z.eqb_spec maxAge 0) as [|_]; [done|].
    destruct (ICacheItem.sliding e) as [[]|]; simpl; try done;
      apply Z.gtb_gt; lia. }
  split.
  - by rewrite (getCacheItem_expired hash key t2 s e Hlook (Hexp e Hm eq_refl eq_refl)).
  - destruct (expired t1 e (Some t1)) eqn:Hfirst.
    + rewrite (getCacheItem_expired hash key t1 s e Hlook Hfirst). simpl.
      rewrite getCacheItem_absent; [done| |done]. simpl. apply lookup_delete_eq.
    + rewrite (getCacheItem_hit hash key t1 s e Hlook Hfirst). simpl.
      erewrite getCacheItem_expired; [done| |].
      * simpl. apply lookup_insert_eq.
      * by apply Hexp.
Qed.

(** X7. A hit on a sliding entry restarts its age: after a hit at [t1], a
    read at [t2] no more than [maxAge] later is a hit again, however long
    ago the entry was created, and it returns the same entry with
    [accessed] set to [t2]. *)
Theorem sliding_entry_prolonged (key : jsval) (s : CacheManager.t)
    (e : ICacheItem.t) (maxAge t1 t2 : Z) :
  CacheManager.storage s !! getHash key = Some e ->
  ICacheItem.sliding e = Some true ->
  ICacheItem.maxAge e = Some maxAge ->
  expired t1 e (Some t1) = false ->
  t2 - t1 <= maxAge ->
  fst (getCacheItem key t2 (snd (getCacheItem key t1 s)))
    = Some (Own (ICacheItem.set_accessed t2 e)).
Proof.
  intros Hlook Hsliding Hm Hfirst Hage.
  rewrite (getCacheItem_hit hash key t1 s e Hlook Hfirst). simpl.
  rewrite (getCacheItem_hit hash key t2 _ (ICacheItem.set_accessed t1 e)); [done| |].
  - simpl. apply lookup_insert_eq.
  - unfold expired. simpl. rewrite Hm, Hsliding. simpl.
    destruct (maxAge =? 0); [done|]. rewrite Z.gtb_ltb, Z.ltb_ge. lia.
Qed.

(** X22. What [getCacheItem(key)] does, for a key whose hash is not
    "__proto__".  If the storage returns nothing it is a miss and the
    manager is unchanged.  If the storage returns a member of
    [Object.prototype] (nothing is stored under the hash, which names such
    a member), that member is returned as the item and the manager is
    unchanged.  If an entry is stored and expired at the current time, it
    is deleted from the storage and the call is a miss.  Otherwise the
    stored entry is returned with its [accessed] set to the current time
    and every other field as it was, and the storage holds it so; the
    policies and the contexts are never touched.
    The manager is a [plain] one: none of its dictionaries was written
    under "__proto__". *)
Theorem getCacheItem_cases (key : jsval) (now : Z) (s : CacheManager.t)
    (Hplain : CacheManager.plain s) :
  getHash key <> "__proto__" ->
  let h := getHash key in
  (CacheManager.storage s !! h = None -> inherited h = false ->
     getCacheItem key now s = (None, s)) /\
  (CacheManager.storage s !! h = None -> inherited h = true ->
     getCacheItem key now s = (Some (Inherited h), s)) /\
  (forall e, CacheManager.storage s !! h = Some e ->
     expired now e (Some now) = true ->
     getCacheItem key now s =
       (None, CacheManager.with_storage (delete h (CacheManager.storage s)) s)) /\
  (forall e, CacheManager.storage s !! h = Some e ->
     expired now e (Some now) = false ->
     exists e',
       getCacheItem key now s =
         (Some (Own e'),
          CacheManager.with_storage (<[h := e']> (CacheManager.storage s)) s) /\
       ICacheItem.accessed e' = now /\
       ICacheItem.key e' = ICacheItem.key e /\
       ICacheItem.value e' = ICacheItem.value e /\
       ICacheItem.context e' = ICacheItem.context e /\
       ICacheItem.policyKey e' = ICacheItem.policyKey e /\
       ICacheItem.maxAge e' = ICacheItem.maxAge e /\
       ICacheItem.sliding e' = ICacheItem.sliding e /\
       ICacheItem.created e' = ICacheItem.created e) /\
  CacheManager._policies (snd (getCacheItem key now s)) = CacheManager._policies s /\
  CacheManager._contexts (snd (getCacheItem key now s)) = CacheManager._contexts s.
Proof.
  intros _ h. split; [apply getCacheItem_absent|].
  split; [apply getCacheItem_inherited|].
  split; [apply getCacheItem_expired|].
  split; [|split; [apply getCacheItem_policies | apply getCacheItem_contexts]].
  intros e Hlook Hfresh. exists (ICacheItem.set_accessed now e).
  split; [by apply getCacheItem_hit|]. done.
Qed.

(** X21. [has(key)] is true exactly when an entry is stored under the
    hash of the key and is not expired at the time of the call, or nothing
    is stored under it and it names a member of [Object.prototype]; and
    [has] leaves the manager as it found it.
    The manager is a [plain] one: none of its dictionaries was written
    under "__proto__". *)
Theorem has_cases (key : jsval) (now : Z) (s : CacheManager.t)
    (Hplain : CacheManager.plain s) :
  let h := getHash key in
  (fst (has key now s) = true <->
     (exists e, CacheManager.storage s !! h = Some e /\
                expired now e (Some now) = false) \/
     (CacheManager.storage s !! h = None /\ inherited h = true)) /\
  snd (has key now s) = s.
Proof.
  intros h. unfold CacheManager.has, MemoryCache.get, property. fold h.
  destruct (CacheManager.storage s !! h) as [e|] eqn:Hlook; simpl.
  - rewrite <- (expired_now_given now now e). split; [|done].
    rewrite negb_true_iff. split.
    + intros Hfresh. left. by exists e.
    + intros [(e' & [= <-] & Hfresh) | [? _]]; done.
  - destruct (inherited h); simpl; (split; [|done]); split; try done.
    + intros _. by right.
    + intros [(e & ? & _) | [_ ?]]; done.
Qed.

End reads_over_time.

Lemma fixed_entry_not_prolonged_witness :
  let s := CacheManager.mk {[ "k" := item_fixed ]} ∅ ∅ in
  fst (CacheManager.getCacheItem digest (VStr "k") 101
         (snd (CacheManager.getCacheItem digest (VStr "k") 90 s))) = None.
Proof.
  intros s.
  assert (Hplain : CacheManager.plain s) by (split; [|split]; reflexivity).
  apply (fixed_entry_not_prolonged digest (VStr "k") s item_fixed 100 90 101 Hplain);
    [reflexivity | reflexivity | discriminate | reflexivity | lia | reflexivity].
Defined.

Lemma sliding_entry_prolonged_witness :
  let s := CacheManager.mk {[ "k" := item_sliding ]} ∅ ∅ in
  fst (CacheManager.getCacheItem digest (VStr "k") 230
         (snd (CacheManager.getCacheItem digest (VStr "k") 140 s)))
    = Some (Own (ICacheItem.set_accessed 230 item_sliding)).
Proof.
  intros s.
  apply (sliding_entry_prolonged digest (VStr "k") s item_sliding 100 140 230);
    [reflexivity | reflexivity | reflexivity | reflexivity | lia].
Defined.

Lemma getCacheItem_cases_witness :
  let s := CacheManager.mk {[ "k" := item_fixed ]} ∅ ∅ in
  CacheManager.getCacheItem digest (VStr "z") 60 s = (None, s) /\
  CacheManager.getCacheItem digest (VStr "valueOf") 60 s
    = (Some (Inherited "valueOf"), s) /\
  CacheManager.getCacheItem digest (VStr "k") 101 s
    = (None, CacheManager.with_storage (delete "k" {[ "k" := item_fixed ]}) s) /\
  exists e',
    fst (CacheManager.getCacheItem digest (VStr "k") 60 s) = Some (Own e') /\
    ICacheItem.accessed e' = 60.
Proof.
  intros s.
  assert (Hplain : CacheManager.plain s) by (split; [|split]; reflexivity).
  destruct (getCacheItem_cases digest (VStr "z") 60 s Hplain) as (Hmiss & _);
    [discriminate|].
  destruct (getCacheItem_cases digest (VStr "valueOf") 60 s Hplain) as (_ & Hinh & _);
    [discriminate|].
  destruct (getCacheItem_cases digest (VStr "k") 101 s Hplain) as (_ & _ & Hexp & _);
    [discriminate|].
  destruct (getCacheItem_cases digest (VStr "k") 60 s Hplain)
    as (_ & _ & _ & Hhit & _); [discriminate|].
  split; [apply Hmiss; reflexivity|].
  split; [apply Hinh; reflexivity|].
  split; [apply (Hexp item_fixed); reflexivity|].
  destruct (Hhit item_fixed eq_refl eq_refl) as (e' & Hcall & Haccessed & _).
  exists e'. split; [by rewrite Hcall | exact Haccessed].
Defined.

Lemma has_cases_witness :
  let s := CacheManager.mk {[ "k" := item_fixed ]} ∅ ∅ in
  fst (CacheManager.has digest (VStr "k") 60 s) = true /\
  fst (CacheManager.has digest (VStr "toString") 60 s) = true.
Proof.
  intros s.
  assert (Hplain : CacheManager.plain s) by (split; [|split]; reflexivity).
  destruct (has_cases digest (VStr "k") 60 s Hplain) as [[_ Hk] _].
  destruct (has_cases digest (VStr "toString") 60 s Hplain) as [[_ Ht] _].
  split.
  - apply Hk. left. exists item_fixed. split; reflexivity.
  - apply Ht. right. split; reflexivity.
Defined.

(** ** The memory storage *)

(** X8. [MemoryCache] under a hash other than "__proto__": what [set] puts
    there is what [get] and [remove] return and makes [has] true; [remove]
    takes it out again, restoring the cache when the hash was free before,
    after which [get] finds the member of [Object.prototype] of that name
    if there is one and nothing otherwise; other hashes are not affected
    by [set] or [remove]; removing a hash that has no own entry returns
    what [get] returns and changes nothing.
    The cache was not written under "__proto__". *)
Theorem MemoryCache_store (h : string) (item : ICacheItem.t)
    (c : gmap string ICacheItem.t)
    (Hplain : c !! "__proto__" = None) :
  h <> "__proto__" ->
  MemoryCache.get h (MemoryCache.set h item c) = Some (Own item) /\
  MemoryCache.has h (MemoryCache.set h item c) = true /\
  fst (MemoryCache.remove h (MemoryCache.set h item c)) = Some (Own item) /\
  MemoryCache.get h (snd (MemoryCache.remove h (MemoryCache.set h item c)))
    = (if inherited h then Some (Inherited h) else None) /\
  MemoryCache.has h (snd (MemoryCache.remove h (MemoryCache.set h item c)))
    = inherited h /\
  (c !! h = None ->
     snd (MemoryCache.remove h (MemoryCache.set h item c)) = c /\
     MemoryCache.remove h c = (MemoryCache.get h c, c)) /\
  (forall h', h' <> h ->
     MemoryCache.get h' (MemoryCache.set h item c) = MemoryCache.get h' c /\
     MemoryCache.get h' (snd (MemoryCache.remove h c)) = MemoryCache.get h' c).
Proof.
  intros _.
  assert (Hput : MemoryCache.set h item c !! h = Some item) by apply lookup_insert_eq.
  assert (Hout : snd (MemoryCache.remove h (MemoryCache.set h item c)) = delete h c).
  { rewrite MemoryCache_remove_storage. apply delete_insert_eq. }
  assert (Hgone : delete h c !! h = None) by apply lookup_delete_eq.
  split; [by apply property_own|].
  split; [unfold MemoryCache.has; by rewrite (property_own _ _ _ Hput)|].
  split; [unfold MemoryCache.remove; by rewrite (property_own _ _ _ Hput)|].
  split; [rewrite Hout; unfold MemoryCache.get, property; by rewrite Hgone|].
  split.
  { rewrite Hout. unfold MemoryCache.has, property. rewrite Hgone.
    by destruct (inherited h). }
  split.
  - intros Hfree. split; [rewrite Hout; by apply delete_id|].
    unfold MemoryCache.remove, MemoryCache.get.
    destruct (property h c) eqn:Hp; [|done]. by rewrite delete_id.
  - intros h' Hne. unfold MemoryCache.get, property.
    rewrite MemoryCache_remove_storage.
    unfold MemoryCache.set. rewrite lookup_insert_ne by done.
    by rewrite lookup_delete_ne by done.
Qed.

Lemma MemoryCache_store_witness :
  snd (MemoryCache.remove "k" (MemoryCache.set "k" item_fixed ∅)) = ∅ /\
  MemoryCache.remove "k" (∅ : gmap string ICacheItem.t) = (None, ∅).
Proof.
  destruct (MemoryCache_store "k" item_fixed ∅ (lookup_empty _))
    as (_ & _ & _ & _ & _ & Hfree & _); [discriminate|].
  apply Hfree. reflexivity.
Defined.

(** ** Clearing, isolation of keys, policies *)

Section manager_operations.
Variable hash : jsval -> string.
Abbreviation getHash := (CacheManager.getHash hash).
Abbreviation getCacheItem := (CacheManager.getCacheItem hash).
Abbreviation has := (CacheManager.has hash).
Abbreviation get := (CacheManager.get hash).
Abbreviation set := (CacheManager.set hash).
Abbreviation remove := (CacheManager.remove hash).
Abbreviation wrap := (CacheManager.wrap hash).
Abbreviation setCachePolicy := (CacheManager.setCachePolicy hash).
Abbreviation resolvedPolicy := (CacheManager.resolvedPolicy hash).

(** X9. After [clear()] no entry and no context is stored and the
    policies are kept.  So for a key whose hash is not the name of a
    member of [Object.prototype], [has] is false, [getCacheItem] and [get]
    miss and [remove] returns [false]; for a hash that is such a name,
    [has] is true, [getCacheItem] returns that member, [get] returns
    [undefined] and [remove] returns [true].  [removeContext] changes
    nothing, and throws when the context names such a member.  A later
    [set] resolves the policy it would have resolved before. *)
Theorem clear_correct (s : CacheManager.t) :
  CacheManager.storage (CacheManager.clear s) = ∅ /\
  CacheManager._contexts (CacheManager.clear s) = ∅ /\
  CacheManager._policies (CacheManager.clear s) = CacheManager._policies s /\
  (forall key now,
     has key now (CacheManager.clear s)
       = (inherited (getHash key), CacheManager.clear s) /\
     fst (getCacheItem key now (CacheManager.clear s))
       = (if inherited (getHash key) then Some (Inherited (getHash key)) else None) /\
     fst (get key now (CacheManager.clear s)) = VUndefined /\
     fst (remove key (CacheManager.clear s)) = Return (inherited (getHash key)) /\
     CacheManager.storage (snd (remove key (CacheManager.clear s))) = ∅) /\
  (forall context,
     CacheManager.removeContext context (CacheManager.clear s)
       = (if inherited context then ThrowTypeError else Return tt,
          CacheManager.clear s)) /\
  (forall options,
     resolvedPolicy options (CacheManager.clear s) = resolvedPolicy options s).
Proof.
  split; [done|]. split; [done|]. split; [done|]. split; [|split; [|done]].
  - intros key now.
    unfold CacheManager.has, CacheManager.get, CacheManager.getCacheItem,
      CacheManager.remove, CacheManager.clear, MemoryCache.get,
      MemoryCache.remove, MemoryCache.clear, property.
    cbn [CacheManager.storage]. rewrite lookup_empty.
    destruct (inherited (getHash key)); simpl;
      (split; [done|split; [done|split; [done|split; [done|]]]]);
      [apply delete_empty | done].
  - intros context.
    unfold CacheManager.removeContext, CacheManager.clear, property.
    cbn [CacheManager._contexts]. rewrite lookup_empty.
    by destruct (inherited context).
Qed.

(** X10. Keys with different hashes do not interfere: reading, writing,
    removing or calling a wrapped function under the key [a], whose hash
    is not "__proto__", leaves the entry stored under the hash of [b] as
    it is, so [has(b)] and [getCacheItem(b)] answer as they would have
    before.
    The manager is a [plain] one: none of its dictionaries was written
    under "__proto__". *)
Theorem keys_do_not_interfere (a b : jsval) (s : CacheManager.t)
    (Hplain : CacheManager.plain s) :
  getHash a <> "__proto__" ->
  getHash a <> getHash b ->
  forall s',
    (exists now, s' = snd (getCacheItem a now s)) \/
    (exists value options parameters now,
       s' = snd (set a value options parameters now s)) \/
    (s' = snd (remove a s)) \/
    (exists target options getKey this parameters now_get now_set,
       match getKey with
       | Some getKey => getKey parameters
       | None => CacheManager.defaultKey target parameters
       end = a /\
       s' = snd (wrap target options getKey this parameters now_get now_set s)) ->
    CacheManager.storage s' !! getHash b = CacheManager.storage s !! getHash b /\
    forall time,
      fst (has b time s') = fst (has b time s) /\
      fst (getCacheItem b time s') = fst (getCacheItem b time s).
Proof.
  intros _ Hne s' Hop.
  assert (Hsame : CacheManager.storage s' !! getHash b
                  = CacheManager.storage s !! getHash b).
  { destruct Hop as [(now & ->) | [(value & options & parameters & now & ->)
      | [-> | (target & options & getKey & this & parameters & now_get & now_set
               & Hkey & ->)]]].
    - by apply getCacheItem_storage_ne.
    - by apply set_storage_ne.
    - rewrite remove_storage. by apply lookup_delete_ne.
    - apply wrap_storage_ne. by rewrite Hkey. }
  split; [done|]. intros time.
  split; [by apply has_same_entry | by apply getCacheItem_same_entry].
Qed.

(** X11. Overriding a policy works for later writes: after
    [setCachePolicy(policyKey, policy)] with a truthy key, a [set] whose
    options name that key stores an entry with the [maxAge] (evaluated on
    the parameters) and the [sliding] of the registered policy, whatever
    policy the options carry inline; when the registered [maxAge] is the
    number 0 the [set] stores nothing. *)
Theorem setCachePolicy_then_set (policyKey : jsval) (policy : ICachePolicy.t)
    (key value : jsval) (context : option ContextOption)
    (inline : option ICachePolicy.t) (parameters : option (list jsval))
    (now : Z) (s : CacheManager.t) :
  truthy policyKey = true ->
  let options := Some (ICacheOptions.mk context (Some (PolicyKeyValue policyKey)) inline) in
  let s1 := setCachePolicy policyKey policy s in
  (ICachePolicy.maxAge policy <> MaxAgeNumber 0 ->
     exists item,
       CacheManager.storage (snd (set key value options parameters now s1))
         !! getHash key = Some item /\
       ICacheItem.value item = value /\
       ICacheItem.maxAge item = Some (CacheManager.evaluatedMaxAge policy parameters) /\
       ICacheItem.sliding item = ICachePolicy.sliding policy) /\
  (ICachePolicy.maxAge policy = MaxAgeNumber 0 ->
     set key value options parameters now s1 = (Return tt, [], s1)).
Proof.
  intros Htruthy options s1.
  assert (Hres : resolvedPolicy options s1 = Some (Own policy))
    by (by apply resolvedPolicy_after_override).
  split.
  - intros Hnz.
    assert (Hthrows : CacheManager.throwsOnPolicy (resolvedPolicy options s1) = false)
      by (by rewrite Hres).
    assert (Hlate : CacheManager.returnsEarly (resolvedPolicy options s1) = false).
    { rewrite Hres. unfold CacheManager.returnsEarly.
      destruct (ICachePolicy.maxAge policy) as [m|f]; [|done].
      apply Z.eqb_neq. congruence. }
    destruct (set_stores hash key value options parameters now s1 Hthrows Hlate)
      as [pk ->].
    rewrite set_store_state. rewrite Hres.
    eexists. split; [apply setCacheItem_lookup|]. done.
  - intros Hzero. apply (set_maxAge_zero_number hash _ _ _ _ _ _ policy Hres Hzero).
Qed.

(** X12. A [set] whose resolved policy has the number 0 as [maxAge] does
    nothing: it returns, no handler is attached and the manager is
    unchanged, so an entry stored earlier under the key stays, and [has]
    and [get] answer as before. *)
Theorem set_disabled_changes_nothing (key value : jsval)
    (options : option ICacheOptions.t) (parameters : option (list jsval))
    (now : Z) (s : CacheManager.t) (policy : ICachePolicy.t) :
  resolvedPolicy options s = Some (Own policy) ->
  ICachePolicy.maxAge policy = MaxAgeNumber 0 ->
  fst (set key value options parameters now s) = (Return tt, []) /\
  snd (set key value options parameters now s) = s /\
  forall k time,
    has k time (snd (set key value options parameters now s)) = has k time s /\
    get k time (snd (set key value options parameters now s)) = get k time s.
Proof.
  intros Hres Hzero.
  by rewrite (set_maxAge_zero_number hash key value options parameters now s
                policy Hres Hzero).
Qed.

End manager_operations.

Lemma keys_do_not_interfere_witness :
  let s := CacheManager.mk {[ "b" := item_fixed ]} ∅ ∅ in
  CacheManager.storage
    (snd (CacheManager.set digest (VStr "a") (VRef 2) None None 10 s)) !! "b"
    = Some item_fixed.
Proof.
  intros s.
  destruct (keys_do_not_interfere digest (VStr "a") (VStr "b") s) with
    (s' := snd (CacheManager.set digest (VStr "a") (VRef 2) None None 10 s))
    as [Hsame _].
  - split; [|split]; reflexivity.
  - discriminate.
  - discriminate.
  - right. left. by exists (VRef 2), None, None, 10.
  - exact Hsame.
Defined.

Lemma setCachePolicy_then_set_witness :
  let s1 := CacheManager.setCachePolicy digest (VStr "p") policy_100 CacheManager.new in
  let options := Some (ICacheOptions.mk None (Some (PolicyKeyValue (VStr "p")))
                         (Some policy_negative)) in
  exists item,
    CacheManager.storage
      (snd (CacheManager.set digest (VStr "k") (VRef 1) options None 0 s1)) !! "k"
      = Some item /\
    ICacheItem.value item = VRef 1 /\
    ICacheItem.maxAge item = Some 100 /\
    ICacheItem.sliding item = None.
Proof.
  intros s1 options.
  destruct (setCachePolicy_then_set digest (VStr "p") policy_100 (VStr "k") (VRef 1)
              None (Some policy_negative) None 0 CacheManager.new eq_refl)
    as [Hstored _].
  apply Hstored. discriminate.
Defined.

Lemma set_disabled_changes_nothing_witness :
  let s := CacheManager.mk {[ "k" := item_fixed ]} ∅ ∅ in
  snd (CacheManager.set digest (VStr "k") (VRef 9) (options_policy policy_zero)
         None 10 s) = s.
Proof.
  intros s.
  apply (set_disabled_changes_nothing digest (VStr "k") (VRef 9)
           (options_policy policy_zero) None 10 s policy_zero); reflexivity.
Defined.

(** ** Memoization *)

Section memoization.
Variable hash : jsval -> string.
Abbreviation getHash := (CacheManager.getHash hash).
Abbreviation getCacheItem := (CacheManager.getCacheItem hash).
Abbreviation setCacheItem := (CacheManager.setCacheItem hash).
Abbreviation has := (CacheManager.has hash).
Abbreviation set := (CacheManager.set hash).
Abbreviation wrap := (CacheManager.wrap hash).
Abbreviation resolvedPolicy := (CacheManager.resolvedPolicy hash).
Abbreviation cacheDecorator := (CacheDecorator.cacheDecorator hash).

Lemma resolvedPolicy_policies (options : option ICacheOptions.t)
    (s s' : CacheManager.t) :
  CacheManager._policies s' = CacheManager._policies s ->
  resolvedPolicy options s' = resolvedPolicy options s.
Proof. intros Heq. unfold CacheManager.resolvedPolicy. by rewrite Heq. Qed.

(** The conditions under which a write is found by a later read: no policy
    is resolved, or one that does not return early and whose [maxAge] is 0
    (by a function) or has not elapsed; and the context is not the name of
    a member of [Object.prototype]. *)
Lemma wrap_miss_then_hit (target : Callable) (options : option ICacheOptions.t)
    (getKey : option (list jsval -> jsval)) (this this' : jsval)
    (parameters : list jsval) (now_get now_set later_get later_set : Z)
    (s : CacheManager.t) :
  let key :=
    match getKey with
    | Some getKey => getKey parameters
    | None => CacheManager.defaultKey target parameters
    end in
  fst (getCacheItem key now_get s) = None ->
  CacheManager.throwsOnPolicy (resolvedPolicy options s) = false ->
  CacheManager.returnsEarly (resolvedPolicy options s) = false ->
  (forall policy, resolvedPolicy options s = Some (Own policy) ->
     CacheManager.evaluatedMaxAge policy (Some parameters) = 0 \/
     later_get - now_set <= CacheManager.evaluatedMaxAge policy (Some parameters)) ->
  (forall context,
     CacheManager.evaluatedContext options (Some parameters) = Some context ->
     inherited context = false) ->
  let first := wrap target options getKey this parameters now_get now_set s in
  let second :=
    wrap target options getKey this' parameters later_get later_set (snd first) in
  fst first
    = (Return (fn_apply target this parameters),
       Invoked (fn_name target) this parameters
         :: snd (fst (set key (fn_apply target this parameters) options
                        (Some parameters) now_set (snd (getCacheItem key now_get s))))) /\
  fst second = (Return (fn_apply target this parameters), []) /\
  fst (has key later_get (snd first)) = true.
Proof.
  intros key Hmiss Hthrows Hlate Hage Hcontext first second.
  pose proof (getCacheItem_policies hash key now_get s) as Hpol.
  pose proof (resolvedPolicy_policies options s _ Hpol) as Hres.
  set (s1 := snd (getCacheItem key now_get s)) in *.
  assert (Hthrows1 : CacheManager.throwsOnPolicy (resolvedPolicy options s1) = false)
    by (by rewrite Hres).
  assert (Hlate1 : CacheManager.returnsEarly (resolvedPolicy options s1) = false)
    by (by rewrite Hres).
  assert (Hage1 : forall policy,
             resolvedPolicy options s1 = Some (Own policy) ->
             CacheManager.evaluatedMaxAge policy (Some parameters) = 0 \/
             later_get - now_set <= CacheManager.evaluatedMaxAge policy (Some parameters))
    by (by rewrite Hres).
  destruct (set_then_found hash key (fn_apply target this parameters) options
              (Some parameters) now_set later_get s1 Hthrows1 Hlate1 Hage1)
    as (item & Hstored & Hvalue & Hctx & Hfresh).
  assert (Hreturns : fst (fst (set key (fn_apply target this parameters) options
                                 (Some parameters) now_set s1)) = Return tt).
  { destruct (set_stores hash key (fn_apply target this parameters) options
                (Some parameters) now_set s1 Hthrows1 Hlate1) as [pk ->].
    rewrite set_store_completion. apply setCacheItem_returns. simpl.
    intros context Hc. by apply Hcontext. }
  pose proof (wrap_miss hash target options getKey this parameters now_get now_set
                s Hmiss) as Hfirst.
  fold key in Hfirst. fold s1 in Hfirst. fold first in Hfirst.
  rewrite Hreturns in Hfirst.
  split; [by rewrite Hfirst|]. split.
  - subst second. rewrite Hfirst. simpl.
    rewrite (wrap_hit hash target options getKey this' parameters later_get
               later_set _ item Hstored Hfresh). simpl.
    by rewrite Hvalue.
  - rewrite Hfirst. simpl. rewrite (has_own hash key later_get _ item Hstored).
    simpl. by rewrite Hfresh.
Qed.

(** X13. A wrapped function is memoized.  When a call misses and its
    options let the write through (the policy key and the context do not
    name members of [Object.prototype], and the resolved [maxAge] is not
    the number 0), the target is invoked once and its result is returned;
    a second call with the same parameters, made before the entry expires,
    returns that same result without invoking the target, whatever the
    receiver of the second call.
    The manager is a [plain] one: none of its dictionaries was written
    under "__proto__". *)
Theorem wrap_memoizes (target : Callable) (options : option ICacheOptions.t)
    (getKey : option (list jsval -> jsval)) (this this' : jsval)
    (parameters : list jsval) (now_get now_set later_get later_set : Z)
    (s : CacheManager.t)
    (Hplain : CacheManager.plain s) :
  let key :=
    match getKey with
    | Some getKey => getKey parameters
    | None => CacheManager.defaultKey target parameters
    end in
  getHash key <> "__proto__" ->
  fst (getCacheItem key now_get s) = None ->
  CacheManager.throwsOnPolicy (resolvedPolicy options s) = false ->
  CacheManager.returnsEarly (resolvedPolicy options s) = false ->
  (forall policy, resolvedPolicy options s = Some (Own policy) ->
     CacheManager.evaluatedMaxAge policy (Some parameters) = 0 \/
     later_get - now_set <= CacheManager.evaluatedMaxAge policy (Some parameters)) ->
  (forall context,
     CacheManager.evaluatedContext options (Some parameters) = Some context ->
     inherited context = false) ->
  let first := wrap target options getKey this parameters now_get now_set s in
  let second :=
    wrap target options getKey this' parameters later_get later_set (snd first) in
  fst (fst first) = Return (fn_apply target this parameters) /\
  (exists effects,
     snd (fst first) = Invoked (fn_name target) this parameters :: effects /\
     forall name receiver arguments, Invoked name receiver arguments ∉ effects) /\
  fst second = (Return (fn_apply target this parameters), []).
Proof.
  intros key _ Hmiss Hthrows Hlate Hage Hcontext first second.
  destruct (wrap_miss_then_hit target options getKey this this' parameters
              now_get now_set later_get later_set s Hmiss Hthrows Hlate Hage Hcontext)
    as (Hfirst & Hsecond & _).
  fold key in Hfirst. fold first in Hfirst, Hsecond. fold second in Hsecond.
  rewrite Hfirst. split; [done|]. split; [|done].
  eexists. split; [done|]. intros name receiver arguments.
  apply set_invokes_nothing.
Qed.

(** X14. A wrapped function whose resolved policy has the number 0 as
    [maxAge] is never cached: a call for which the storage returns nothing
    invokes the target, returns its result and leaves the manager exactly
    as it was, so the next call invokes the target again.
    The manager is a [plain] one: none of its dictionaries was written
    under "__proto__". *)
Theorem wrap_disabled_never_caches (target : Callable)
    (options : option ICacheOptions.t) (getKey : option (list jsval -> jsval))
    (this : jsval) (parameters : list jsval) (now_get now_set : Z)
    (s : CacheManager.t)
    (Hplain : CacheManager.plain s) :
  let key :=
    match getKey with
    | Some getKey => getKey parameters
    | None => CacheManager.defaultKey target parameters
    end in
  MemoryCache.get (getHash key) (CacheManager.storage s) = None ->
  CacheManager.returnsEarly (resolvedPolicy options s) = true ->
  wrap target options getKey this parameters now_get now_set s
    = (Return (fn_apply target this parameters),
       [Invoked (fn_name target) this parameters], s).
Proof.
  intros key Hnone Hearly. unfold CacheManager.wrap. fold key.
  rewrite (getCacheItem_miss hash key now_get s Hnone).
  by rewrite (set_returns_early hash key _ options (Some parameters) now_set s Hearly).
Qed.

(** X15. A decorated method is cached under
    [[constructor, propertyName, ...parameters]], which does not hold the
    receiver: after a call that misses and whose options let the write
    through, [has] is true for that key, and a call on any other receiver
    with the same parameters, made before the entry expires, returns the
    result of the first call without invoking the method.
    The manager is a [plain] one: none of its dictionaries was written
    under "__proto__". *)
Theorem decorated_method_shared (options : option ICacheOptions.t)
    (constructor : jsval) (propertyName : string) (method : Callable)
    (this this' : jsval) (parameters : list jsval)
    (now_get now_set later_get later_set : Z) (s : CacheManager.t)
    (Hplain : CacheManager.plain s) :
  let key := VArr (constructor :: VStr propertyName :: parameters) in
  let cacheOptions :=
    Some (CacheDecorator.assignOptions constructor propertyName options) in
  getHash key <> "__proto__" ->
  fst (getCacheItem key now_get s) = None ->
  CacheManager.throwsOnPolicy (resolvedPolicy cacheOptions s) = false ->
  CacheManager.returnsEarly (resolvedPolicy cacheOptions s) = false ->
  (forall policy, resolvedPolicy cacheOptions s = Some (Own policy) ->
     CacheManager.evaluatedMaxAge policy (Some parameters) = 0 \/
     later_get - now_set <= CacheManager.evaluatedMaxAge policy (Some parameters)) ->
  (forall context,
     CacheManager.evaluatedContext cacheOptions (Some parameters) = Some context ->
     inherited context = false) ->
  let first :=
    cacheDecorator options constructor propertyName method this parameters
      now_get now_set s in
  let second :=
    cacheDecorator options constructor propertyName method this' parameters
      later_get later_set (snd first) in
  fst (fst first) = Return (fn_apply method this parameters) /\
  fst (has key later_get (snd first)) = true /\
  fst second = (Return (fn_apply method this parameters), []).
Proof.
  intros key cacheOptions _ Hmiss Hthrows Hlate Hage Hcontext first second.
  destruct (wrap_miss_then_hit method cacheOptions
              (Some (fun parameters => VArr (constructor :: VStr propertyName :: parameters)))
              this this' parameters now_get now_set later_get later_set s
              Hmiss Hthrows Hlate Hage Hcontext)
    as (Hfirst & Hsecond & Hhas).
  split; [|split].
  - exact (f_equal fst Hfirst).
  - exact Hhas.
  - exact Hsecond.
Qed.

(** X16. The policy of a decorated method can be overridden by its type and
    name: after [setCachePolicy([constructor, propertyName], policy)], a
    call of the decorated method that misses stores its result with the
    [maxAge] and [sliding] of that policy, whatever policy the decorator
    options carry, as long as the options give no [policyKey] of their
    own and the [maxAge] of the policy is not the number 0. *)
Theorem decorated_method_override (options : option ICacheOptions.t)
    (constructor : jsval) (propertyName : string) (method : Callable)
    (policy : ICachePolicy.t) (this : jsval) (parameters : list jsval)
    (now_get now_set : Z) (s : CacheManager.t) :
  let key := VArr (constructor :: VStr propertyName :: parameters) in
  let s1 :=
    CacheManager.setCachePolicy hash (VArr [constructor; VStr propertyName]) policy s in
  (forall o, options = Some o -> ICacheOptions.policyKey o = None) ->
  ICachePolicy.maxAge policy <> MaxAgeNumber 0 ->
  fst (getCacheItem key now_get s1) = None ->
  exists item,
    CacheManager.storage
      (snd (cacheDecorator options constructor propertyName method this parameters
              now_get now_set s1)) !! getHash key = Some item /\
    ICacheItem.value item = fn_apply method this parameters /\
    ICacheItem.maxAge item
      = Some (CacheManager.evaluatedMaxAge policy (Some parameters)) /\
    ICacheItem.sliding item = ICachePolicy.sliding policy.
Proof.
  intros key s1 Hnokey Hnz Hmiss.
  unfold CacheDecorator.cacheDecorator.
  set (cacheOptions := CacheDecorator.assignOptions constructor propertyName options).
  pose proof (wrap_miss hash method (Some cacheOptions)
                (Some (fun parameters => VArr (constructor :: VStr propertyName :: parameters)))
                this parameters now_get now_set s1 Hmiss) as Hcall.
  cbv beta iota in Hcall. fold key in Hcall. rewrite Hcall. cbn [snd].
  pose proof (getCacheItem_policies hash key now_get s1) as Hpol.
  set (s2 := snd (getCacheItem key now_get s1)) in *.
  assert (Hres : resolvedPolicy (Some cacheOptions) s2 = Some (Own policy)).
  { rewrite (resolvedPolicy_policies (Some cacheOptions) s1 s2 Hpol).
    subst cacheOptions. unfold CacheDecorator.assignOptions.
    destruct options as [o|].
    - rewrite (Hnokey o eq_refl). by apply resolvedPolicy_after_override.
    - by apply resolvedPolicy_after_override. }
  assert (Hthrows : CacheManager.throwsOnPolicy (resolvedPolicy (Some cacheOptions) s2)
                    = false) by (by rewrite Hres).
  assert (Hlate : CacheManager.returnsEarly (resolvedPolicy (Some cacheOptions) s2) = false).
  { rewrite Hres. unfold CacheManager.returnsEarly.
    destruct (ICachePolicy.maxAge policy) as [m|f]; [|done].
    apply Z.eqb_neq. congruence. }
  destruct (set_stores hash key (fn_apply method this parameters) (Some cacheOptions)
              (Some parameters) now_set s2 Hthrows Hlate) as [pk Hset].
  rewrite Hset. rewrite Hres. rewrite set_store_state.
  eexists. split; [apply setCacheItem_lookup|]. done.
Qed.

(** X17. An item saved with [setCacheItem] under a key whose hash is not
    "__proto__" replaces whatever was stored under that hash, whether the
    call returns or throws; the policies are untouched.  The call throws
    exactly when the item's context names a member of [Object.prototype]
    under which no set is registered, and then the contexts are untouched
    as well; otherwise the hash is listed under the item's context (also
    the empty one) with those listed before, and without a context the
    contexts are untouched.  A read of the key then returns the item with
    [accessed] set to the time of the read when it is not expired at that
    time, and otherwise misses.
    The manager is a [plain] one: none of its dictionaries was written
    under "__proto__". *)
Theorem setCacheItem_then_read (item : ICacheItem.t) (now : Z) (s : CacheManager.t)
    (Hplain : CacheManager.plain s) :
  getHash (ICacheItem.key item) <> "__proto__" ->
  let s' := snd (setCacheItem item s) in
  CacheManager.storage s' !! getHash (ICacheItem.key item) = Some item /\
  CacheManager._policies s' = CacheManager._policies s /\
  (fst (setCacheItem item s) = ThrowTypeError <->
     exists context,
       ICacheItem.context item = Some context /\
       CacheManager._contexts s !! context = None /\ inherited context = true) /\
  (fst (setCacheItem item s) = ThrowTypeError ->
     CacheManager._contexts s' = CacheManager._contexts s) /\
  (forall context, ICacheItem.context item = Some context ->
     fst (setCacheItem item s) = Return tt ->
     exists hashes,
       CacheManager._contexts s' !! context = Some hashes /\
       getHash (ICacheItem.key item) ∈ hashes /\
       forall h previous,
         CacheManager._contexts s !! context = Some previous ->
         h ∈ previous -> h ∈ hashes) /\
  (ICacheItem.context item = None ->
     CacheManager._contexts s' = CacheManager._contexts s) /\
  (expired now item (Some now) = false ->
     exists item',
       fst (getCacheItem (ICacheItem.key item) now s') = Some (Own item') /\
       ICacheItem.accessed item' = now /\
       ICacheItem.value item' = ICacheItem.value item /\
       fst (has (ICacheItem.key item) now s') = true) /\
  (expired now item (Some now) = true ->
     fst (getCacheItem (ICacheItem.key item) now s') = None /\
     fst (has (ICacheItem.key item) now s') = false).
Proof.
  intros _ s'.
  pose proof (setCacheItem_lookup hash item s) as Hlook. fold s' in Hlook.
  pose proof (has_own hash (ICacheItem.key item) now s' item Hlook) as Hhas.
  split; [done|]. split; [apply setCacheItem_policies|].
  split; [|split; [|split; [|split; [|split]]]].
  - unfold CacheManager.setCacheItem, property.
    destruct (ICacheItem.context item) as [c|]; [|split; [done|by intros (? & ? & _)]].
    destruct (CacheManager._contexts s !! c) eqn:Hc; simpl.
    + split; [done|]. intros (c' & [= <-] & Hnone & _). congruence.
    + destruct (inherited c) eqn:Hinh; simpl.
      * split; [|done]. intros _. by exists c.
      * split; [done|]. intros (c' & [= <-] & _ & Hinh'). congruence.
  - subst s'. unfold CacheManager.setCacheItem.
    repeat (case_match; simplify_eq/=; try done).
  - intros context Hctx. subst s'. unfold CacheManager.setCacheItem, property.
    rewrite Hctx.
    destruct (CacheManager._contexts s !! context) as [listed|] eqn:Hc; simpl.
    + intros _. rewrite lookup_insert_eq. eexists. split; [done|].
      split; [apply elem_of_union; left; by apply elem_of_singleton|].
      intros h previous [= <-] Hin. apply elem_of_union. by right.
    + destruct (inherited context); simpl; [done|].
      intros _. rewrite lookup_insert_eq. eexists. split; [done|].
      split; [apply elem_of_union; left; by apply elem_of_singleton|]. done.
  - intros Hctx. subst s'. unfold CacheManager.setCacheItem. by rewrite Hctx.
  - intros Hfresh. exists (ICacheItem.set_accessed now item).
    rewrite (getCacheItem_hit hash _ now s' item Hlook Hfresh).
    rewrite Hhas, Hfresh. done.
  - intros Hexp. rewrite Hhas, Hexp.
    by rewrite (getCacheItem_expired hash _ now s' item Hlook Hexp).
Qed.

End memoization.

Lemma wrap_memoizes_witness :
  let first :=
    CacheManager.wrap digest getData_a None None (VRef 100) [VNum 1] 0 1
      CacheManager.new in
  fst (CacheManager.wrap digest getData_a None None (VRef 101) [VNum 1] 500 501
         (snd first))
    = (Return (VRef 10), []).
Proof.
  intros first.
  destruct (wrap_memoizes digest getData_a None None (VRef 100) (VRef 101) [VNum 1]
              0 1 500 501 CacheManager.new plain_new) as (_ & _ & Hsecond).
  - vm_compute. discriminate.
  - vm_compute. reflexivity.
  - reflexivity.
  - reflexivity.
  - intros policy Hnone. discriminate Hnone.
  - intros context Hnone. discriminate Hnone.
  - exact Hsecond.
Defined.

Lemma wrap_disabled_never_caches_witness :
  CacheManager.wrap digest getData_a (options_policy policy_zero) None (VRef 100)
    [VNum 1] 0 1 CacheManager.new
  = (Return (VRef 10), [Invoked "getData" (VRef 100) [VNum 1]], CacheManager.new).
Proof.
  apply (wrap_disabled_never_caches digest getData_a (options_policy policy_zero)
           None (VRef 100) [VNum 1] 0 1 CacheManager.new plain_new);
    vm_compute; reflexivity.
Defined.

Lemma decorated_method_shared_witness :
  let first :=
    CacheDecorator.cacheDecorator digest (options_policy policy_100)
      (VFun "TestClass" 5) "getData" getData_a (VRef 100) [VNum 1] 0 1
      CacheManager.new in
  fst (CacheManager.has digest
         (VArr [VFun "TestClass" 5; VStr "getData"; VNum 1]) 90 (snd first)) = true /\
  fst (CacheDecorator.cacheDecorator digest (options_policy policy_100)
         (VFun "TestClass" 5) "getData" getData_a (VRef 101) [VNum 1] 90 91
         (snd first))
    = (Return (VRef 10), []).
Proof.
  intros first.
  destruct (decorated_method_shared digest (options_policy policy_100)
              (VFun "TestClass" 5) "getData" getData_a (VRef 100) (VRef 101)
              [VNum 1] 0 1 90 91 CacheManager.new plain_new)
    as (_ & Hhas & Hsecond).
  - vm_compute. discriminate.
  - vm_compute. reflexivity.
  - vm_compute. reflexivity.
  - vm_compute. reflexivity.
  - intros policy Hpolicy. vm_compute in Hpolicy. injection Hpolicy as <-.
    right. unfold CacheManager.evaluatedMaxAge. simpl. lia.
  - intros context Hcontext. discriminate Hcontext.
  - split; [exact Hhas | exact Hsecond].
Defined.

Lemma decorated_method_override_witness :
  let s1 :=
    CacheManager.setCachePolicy digest (VArr [VFun "TestClass" 5; VStr "getData"])
      policy_100 CacheManager.new in
  exists item,
    CacheManager.storage
      (snd (CacheDecorator.cacheDecorator digest (options_policy policy_negative)
              (VFun "TestClass" 5) "getData" getData_a (VRef 100) [VNum 1] 0 1 s1))
      !! CacheManager.getHash digest
           (VArr [VFun "TestClass" 5; VStr "getData"; VNum 1]) = Some item /\
    ICacheItem.value item = VRef 10 /\
    ICacheItem.maxAge item = Some 100 /\
    ICacheItem.sliding item = None.
Proof.
  intros s1.
  apply (decorated_method_override digest (options_policy policy_negative)
           (VFun "TestClass" 5) "getData" getData_a policy_100 (VRef 100) [VNum 1]
           0 1 CacheManager.new).
  - intros o [= <-]. reflexivity.
  - discriminate.
  - vm_compute. reflexivity.
Defined.

Lemma setCacheItem_then_read_witness :
  (exists item',
     fst (CacheManager.getCacheItem digest (VStr "k") 60
            (snd (CacheManager.setCacheItem digest item_fixed CacheManager.new)))
       = Some (Own item') /\
     ICacheItem.accessed item' = 60) /\
  fst (CacheManager.getCacheItem digest (VStr "k") 101
         (snd (CacheManager.setCacheItem digest item_fixed CacheManager.new))) = None.
Proof.
  destruct (setCacheItem_then_read digest item_fixed 60 CacheManager.new plain_new)
    as (_ & _ & _ & _ & _ & _ & Hfresh & _); [discriminate|].
  destruct (setCacheItem_then_read digest item_fixed 101 CacheManager.new plain_new)
    as (_ & _ & _ & _ & _ & _ & _ & Hexp); [discriminate|].
  split.
  - destruct (Hfresh eq_refl) as (item' & Hread & Haccessed & _).
    exists item'. split; [exact Hread | exact Haccessed].
  - apply Hexp. reflexivity.
Defined.
